(** * tab-chief: leader election between browser tabs

    A shallow embedding of [src/core.ts] (class [TabChief]) and
    [src/types.ts], and the properties of the election state machine, the
    tie-break rule, the effect registry and the observer registry.

    Modelling conventions.
    - An instance is a record with the fields of the class.  Every method is a
      function from instance to instance; the methods keep the names and the
      statement order of the source.
    - [Date.now()] is an argument [now] of every method that reads the clock.
    - Timer handles are fields.  A one-shot timer that has fired keeps its
      handle (the source only forgets a handle in [clearElectionTimer] and
      [clearTimers]), so a handle records whether it is still pending.  The
      timer service itself is the environment: a firing is an input of [step].
    - User closures (tasks, cleanups, observers) are arbitrary computations on
      the state [W] of the hosting page that either return or throw.  They do
      not call back into the instance that runs them.
    - Everything the instance does to its surroundings (messages handed to the
      channel, closures invoked, lines written with [console.error]) is
      appended to the field [trace].
    - A payload is a JavaScript value: the type [Payload] comes with the
      value [undefined] and with the test [cloneable] of the structured clone
      algorithm, which [BroadcastChannel.postMessage] applies to its argument
      (it throws a [DataCloneError] on a value it cannot clone).  A message
      that arrives has been cloned, so [payload] is absent or a value.
    - An exception that leaves a method reaches the caller; it is recorded in
      [trace] as [Raised].
    - Tab identifiers are strings compared as JavaScript compares them
      (code unit by code unit, a proper prefix first); the identifiers built
      by [generateTabId] are ASCII. *)

From Stdlib Require Import ZArith List String Bool Lia.
Import ListNotations.
Local Open Scope Z_scope.

(** ** src/types.ts *)

Inductive TabState : Set := IDLE | ELECTING | CHIEF | FOLLOWER | STOPPED.

Inductive MessageType : Set :=
  HEARTBEAT | ELECTION | VICTORY | ALIVE | DATA | SHUTDOWN.

Definition TabState_eqb (a b : TabState) : bool :=
  match a, b with
  | IDLE, IDLE | ELECTING, ELECTING | CHIEF, CHIEF
  | FOLLOWER, FOLLOWER | STOPPED, STOPPED => true
  | _, _ => false
  end.

(** How a call of a user closure ends. *)
Inductive Completion (A : Type) : Type :=
| Returned (a : A)
| Threw.
Arguments Returned {A} a.
Arguments Threw {A}.

Definition completion_map {A B} (f : A -> B) (c : Completion A) : Completion B :=
  match c with
  | Returned a => Returned (f a)
  | Threw => Threw
  end.

Inductive TimerAction : Set :=
| DeclareVictory   (* the timeout armed by startElection *)
| SuspectChief.    (* the timeout armed by resetElectionTimeout *)

(** A handle returned by [setTimeout]. *)
Record Timeout : Set := mkTimeout {
  action : TimerAction;
  delay : Z;
  pending : bool
}.

Definition DEFAULT_HEARTBEAT_INTERVAL : Z := 1000.
Definition DEFAULT_ELECTION_TIMEOUT : Z := 3000.
Definition ELECTION_DEBOUNCE_TIME : Z := 100.

(** The JavaScript values that travel as payloads: [undefined], which is what
    reading an absent property gives, and whether the structured clone
    algorithm accepts a value (it refuses functions, DOM nodes, ...). *)
Class JsValue (Payload : Type) : Type := mkJsValue {
  undefined : Payload;
  cloneable : Payload -> bool
}.

Section Core.

Context {W : Type} {Payload : Type} {JS : JsValue Payload}.

(** [BaseMessage] and [DataMessage]: only DATA carries a payload. *)
Record ChannelMessage : Type := mkMessage {
  type : MessageType;
  senderId : string;
  timestamp : Z;
  payload : option Payload
}.

(** Closures carry a name, which stands for the identity of the function
    object ([indexOf] compares by identity). *)
Record CleanupFunction : Type := mkCleanup {
  cleanup_name : nat;
  cleanup_call : W -> W * Completion unit
}.

(** [ExclusiveTask = () => CleanupFunction | void]. *)
Record ExclusiveTask : Type := mkTask {
  task_name : nat;
  task_call : W -> W * Completion (option CleanupFunction)
}.

Record MessageCallback : Type := mkMessageCallback {
  message_callback_name : nat;
  message_callback_call : Payload -> W -> W * Completion unit
}.

Record StateChangeCallback : Type := mkStateChangeCallback {
  state_callback_name : nat;
  state_callback_call : TabState -> TabState -> W -> W * Completion unit
}.

Record LeadershipCallback : Type := mkLeadershipCallback {
  leadership_callback_name : nat;
  leadership_callback_call : W -> W * Completion unit
}.

(** What an instance does to its surroundings. *)
Inductive Effect : Type :=
| Posted (m : ChannelMessage)
| TaskRun (name : nat) (result : Completion (option nat))
| CleanupRun (name : nat) (result : Completion unit)
| MessageCallbackRun (name : nat) (data : Payload) (result : Completion unit)
| StateChangeCallbackRun (name : nat) (newState oldState : TabState)
    (result : Completion unit)
| BecomeChiefCallbackRun (name : nat) (result : Completion unit)
| BecomeFollowerCallbackRun (name : nat) (result : Completion unit)
| ConsoleError (text : string)
| Raised (error : string).          (* an exception that leaves the method *)

(** ** src/core.ts: the fields of [TabChief] *)

Record TabChief : Type := mkTabChief {
  tabId : string;
  channelName : string;
  heartbeatInterval : Z;
  electionTimeout : Z;
  creationTimestamp : Z;
  channel : bool;                       (* BroadcastChannel | null *)
  state : TabState;
  currentChiefId : option string;
  heartbeatTimer : option Z;            (* setInterval handle, with its period *)
  electionTimer : option Timeout;
  electionDebounceTimer : option Z;     (* setTimeout handle, with its delay *)
  exclusiveTasks : list ExclusiveTask;
  activeCleanups : list CleanupFunction;
  messageCallbacks : list MessageCallback;
  stateChangeCallbacks : list StateChangeCallback;
  becomeChiefCallbacks : list LeadershipCallback;
  becomeFollowerCallbacks : list LeadershipCallback;
  boundBeforeUnload : bool;             (* beforeunload listener | null *)
  world : W;                            (* the hosting page *)
  trace : list Effect                   (* effects so far, oldest first *)
}.

Definition set_channel (v : bool) (s : TabChief) : TabChief :=
  mkTabChief (tabId s) (channelName s) (heartbeatInterval s) (electionTimeout s)
    (creationTimestamp s) v (state s) (currentChiefId s) (heartbeatTimer s)
    (electionTimer s) (electionDebounceTimer s) (exclusiveTasks s)
    (activeCleanups s) (messageCallbacks s) (stateChangeCallbacks s)
    (becomeChiefCallbacks s) (becomeFollowerCallbacks s) (boundBeforeUnload s)
    (world s) (trace s).

Definition set_state (v : TabState) (s : TabChief) : TabChief :=
  mkTabChief (tabId s) (channelName s) (heartbeatInterval s) (electionTimeout s)
    (creationTimestamp s) (channel s) v (currentChiefId s) (heartbeatTimer s)
    (electionTimer s) (electionDebounceTimer s) (exclusiveTasks s)
    (activeCleanups s) (messageCallbacks s) (stateChangeCallbacks s)
    (becomeChiefCallbacks s) (becomeFollowerCallbacks s) (boundBeforeUnload s)
    (world s) (trace s).

Definition set_currentChiefId (v : option string) (s : TabChief) : TabChief :=
  mkTabChief (tabId s) (channelName s) (heartbeatInterval s) (electionTimeout s)
    (creationTimestamp s) (channel s) (state s) v (heartbeatTimer s)
    (electionTimer s) (electionDebounceTimer s) (exclusiveTasks s)
    (activeCleanups s) (messageCallbacks s) (stateChangeCallbacks s)
    (becomeChiefCallbacks s) (becomeFollowerCallbacks s) (boundBeforeUnload s)
    (world s) (trace s).

Definition set_heartbeatTimer (v : option Z) (s : TabChief) : TabChief :=
  mkTabChief (tabId s) (channelName s) (heartbeatInterval s) (electionTimeout s)
    (creationTimestamp s) (channel s) (state s) (currentChiefId s) v
    (electionTimer s) (electionDebounceTimer s) (exclusiveTasks s)
    (activeCleanups s) (messageCallbacks s) (stateChangeCallbacks s)
    (becomeChiefCallbacks s) (becomeFollowerCallbacks s) (boundBeforeUnload s)
    (world s) (trace s).

Definition set_electionTimer (v : option Timeout) (s : TabChief) : TabChief :=
  mkTabChief (tabId s) (channelName s) (heartbeatInterval s) (electionTimeout s)
    (creationTimestamp s) (channel s) (state s) (currentChiefId s)
    (heartbeatTimer s) v (electionDebounceTimer s) (exclusiveTasks s)
    (activeCleanups s) (messageCallbacks s) (stateChangeCallbacks s)
    (becomeChiefCallbacks s) (becomeFollowerCallbacks s) (boundBeforeUnload s)
    (world s) (trace s).

Definition set_electionDebounceTimer (v : option Z) (s : TabChief) : TabChief :=
  mkTabChief (tabId s) (channelName s) (heartbeatInterval s) (electionTimeout s)
    (creationTimestamp s) (channel s) (state s) (currentChiefId s)
    (heartbeatTimer s) (electionTimer s) v (exclusiveTasks s)
    (activeCleanups s) (messageCallbacks s) (stateChangeCallbacks s)
    (becomeChiefCallbacks s) (becomeFollowerCallbacks s) (boundBeforeUnload s)
    (world s) (trace s).

Definition set_exclusiveTasks (v : list ExclusiveTask) (s : TabChief) : TabChief :=
  mkTabChief (tabId s) (channelName s) (heartbeatInterval s) (electionTimeout s)
    (creationTimestamp s) (channel s) (state s) (currentChiefId s)
    (heartbeatTimer s) (electionTimer s) (electionDebounceTimer s) v
    (activeCleanups s) (messageCallbacks s) (stateChangeCallbacks s)
    (becomeChiefCallbacks s) (becomeFollowerCallbacks s) (boundBeforeUnload s)
    (world s) (trace s).

Definition set_activeCleanups (v : list CleanupFunction) (s : TabChief) : TabChief :=
  mkTabChief (tabId s) (channelName s) (heartbeatInterval s) (electionTimeout s)
    (creationTimestamp s) (channel s) (state s) (currentChiefId s)
    (heartbeatTimer s) (electionTimer s) (electionDebounceTimer s)
    (exclusiveTasks s) v (messageCallbacks s) (stateChangeCallbacks s)
    (becomeChiefCallbacks s) (becomeFollowerCallbacks s) (boundBeforeUnload s)
    (world s) (trace s).

Definition set_messageCallbacks (v : list MessageCallback) (s : TabChief) : TabChief :=
  mkTabChief (tabId s) (channelName s) (heartbeatInterval s) (electionTimeout s)
    (creationTimestamp s) (channel s) (state s) (currentChiefId s)
    (heartbeatTimer s) (electionTimer s) (electionDebounceTimer s)
    (exclusiveTasks s) (activeCleanups s) v (stateChangeCallbacks s)
    (becomeChiefCallbacks s) (becomeFollowerCallbacks s) (boundBeforeUnload s)
    (world s) (trace s).

Definition set_stateChangeCallbacks (v : list StateChangeCallback) (s : TabChief)
  : TabChief :=
  mkTabChief (tabId s) (channelName s) (heartbeatInterval s) (electionTimeout s)
    (creationTimestamp s) (channel s) (state s) (currentChiefId s)
    (heartbeatTimer s) (electionTimer s) (electionDebounceTimer s)
    (exclusiveTasks s) (activeCleanups s) (messageCallbacks s) v
    (becomeChiefCallbacks s) (becomeFollowerCallbacks s) (boundBeforeUnload s)
    (world s) (trace s).

Definition set_becomeChiefCallbacks (v : list LeadershipCallback) (s : TabChief)
  : TabChief :=
  mkTabChief (tabId s) (channelName s) (heartbeatInterval s) (electionTimeout s)
    (creationTimestamp s) (channel s) (state s) (currentChiefId s)
    (heartbeatTimer s) (electionTimer s) (electionDebounceTimer s)
    (exclusiveTasks s) (activeCleanups s) (messageCallbacks s)
    (stateChangeCallbacks s) v (becomeFollowerCallbacks s) (boundBeforeUnload s)
    (world s) (trace s).

Definition set_becomeFollowerCallbacks (v : list LeadershipCallback) (s : TabChief)
  : TabChief :=
  mkTabChief (tabId s) (channelName s) (heartbeatInterval s) (electionTimeout s)
    (creationTimestamp s) (channel s) (state s) (currentChiefId s)
    (heartbeatTimer s) (electionTimer s) (electionDebounceTimer s)
    (exclusiveTasks s) (activeCleanups s) (messageCallbacks s)
    (stateChangeCallbacks s) (becomeChiefCallbacks s) v (boundBeforeUnload s)
    (world s) (trace s).

Definition set_boundBeforeUnload (v : bool) (s : TabChief) : TabChief :=
  mkTabChief (tabId s) (channelName s) (heartbeatInterval s) (electionTimeout s)
    (creationTimestamp s) (channel s) (state s) (currentChiefId s)
    (heartbeatTimer s) (electionTimer s) (electionDebounceTimer s)
    (exclusiveTasks s) (activeCleanups s) (messageCallbacks s)
    (stateChangeCallbacks s) (becomeChiefCallbacks s) (becomeFollowerCallbacks s)
    v (world s) (trace s).

Definition set_world (v : W) (s : TabChief) : TabChief :=
  mkTabChief (tabId s) (channelName s) (heartbeatInterval s) (electionTimeout s)
    (creationTimestamp s) (channel s) (state s) (currentChiefId s)
    (heartbeatTimer s) (electionTimer s) (electionDebounceTimer s)
    (exclusiveTasks s) (activeCleanups s) (messageCallbacks s)
    (stateChangeCallbacks s) (becomeChiefCallbacks s) (becomeFollowerCallbacks s)
    (boundBeforeUnload s) v (trace s).

Definition emit (e : Effect) (s : TabChief) : TabChief :=
  mkTabChief (tabId s) (channelName s) (heartbeatInterval s) (electionTimeout s)
    (creationTimestamp s) (channel s) (state s) (currentChiefId s)
    (heartbeatTimer s) (electionTimer s) (electionDebounceTimer s)
    (exclusiveTasks s) (activeCleanups s) (messageCallbacks s)
    (stateChangeCallbacks s) (becomeChiefCallbacks s) (becomeFollowerCallbacks s)
    (boundBeforeUnload s) (world s) (trace s ++ [e]).

(** The constructor: a fresh instance, given what [generateTabId], the clock
    and the options produce. *)
Definition new_TabChief (id : string) (now : Z) (name : string)
    (heartbeat election : Z) (w : W) : TabChief :=
  mkTabChief id name heartbeat election now false IDLE None None None None
    [] [] [] [] [] [] false w [].

(** The getters [isChief], [currentState] and [id]. *)
Definition isChief (s : TabChief) : bool := TabState_eqb (state s) CHIEF.
Definition currentState (s : TabChief) : TabState := state s.
Definition id (s : TabChief) : string := tabId s.

(** ** Private helpers, leaves first *)

(** [broadcast]: hands the message to the channel when there is one. *)
Definition broadcast (message : ChannelMessage) (s : TabChief) : TabChief :=
  if channel s then emit (Posted message) s else s.

(** [runTask]: the setup runs inside try/catch; a returned function is pushed
    on [activeCleanups]. *)
Definition runTask (task : ExclusiveTask) (s : TabChief) : TabChief :=
  let (w, result) := task_call task (world s) in
  let s := emit (TaskRun (task_name task)
                   (completion_map (option_map cleanup_name) result))
             (set_world w s) in
  match result with
  | Returned (Some cleanup) =>
      set_activeCleanups (activeCleanups s ++ [cleanup]) s
  | Returned None => s
  | Threw => emit (ConsoleError "[TabChief] Error running exclusive task:") s
  end.

Definition runAllTasks (s : TabChief) : TabChief :=
  fold_left (fun acc task => runTask task acc) (exclusiveTasks s) s.

(** One turn of the loop of [runCleanups]. *)
Definition runCleanup (cleanup : CleanupFunction) (s : TabChief) : TabChief :=
  let (w, result) := cleanup_call cleanup (world s) in
  let s := emit (CleanupRun (cleanup_name cleanup) result) (set_world w s) in
  match result with
  | Returned _ => s
  | Threw => emit (ConsoleError "[TabChief] Error running cleanup:") s
  end.

Definition runCleanups (s : TabChief) : TabChief :=
  set_activeCleanups []
    (fold_left (fun acc cleanup => runCleanup cleanup acc) (activeCleanups s) s).

(** One turn of the loop of [notifyMessageCallbacks]. *)
Definition notifyMessageCallback (data : Payload) (callback : MessageCallback)
    (s : TabChief) : TabChief :=
  let (w, result) := message_callback_call callback data (world s) in
  let s := emit (MessageCallbackRun (message_callback_name callback) data result)
             (set_world w s) in
  match result with
  | Returned _ => s
  | Threw => emit (ConsoleError "[TabChief] Error in message callback:") s
  end.

Definition notifyMessageCallbacks (data : Payload) (s : TabChief) : TabChief :=
  fold_left (fun acc callback => notifyMessageCallback data callback acc)
    (messageCallbacks s) s.

Definition notifyStateChangeCallback (newState oldState : TabState)
    (callback : StateChangeCallback) (s : TabChief) : TabChief :=
  let (w, result) := state_callback_call callback newState oldState (world s) in
  let s := emit (StateChangeCallbackRun (state_callback_name callback)
                   newState oldState result) (set_world w s) in
  match result with
  | Returned _ => s
  | Threw => emit (ConsoleError "[TabChief] Error in state change callback:") s
  end.

Definition notifyStateChangeCallbacks (newState oldState : TabState)
    (s : TabChief) : TabChief :=
  fold_left
    (fun acc callback => notifyStateChangeCallback newState oldState callback acc)
    (stateChangeCallbacks s) s.

Definition notifyBecomeChiefCallback (callback : LeadershipCallback)
    (s : TabChief) : TabChief :=
  let (w, result) := leadership_callback_call callback (world s) in
  let s := emit (BecomeChiefCallbackRun (leadership_callback_name callback) result)
             (set_world w s) in
  match result with
  | Returned _ => s
  | Threw => emit (ConsoleError "[TabChief] Error in become Chief callback:") s
  end.

Definition notifyBecomeChiefCallbacks (s : TabChief) : TabChief :=
  fold_left (fun acc callback => notifyBecomeChiefCallback callback acc)
    (becomeChiefCallbacks s) s.

Definition notifyBecomeFollowerCallback (callback : LeadershipCallback)
    (s : TabChief) : TabChief :=
  let (w, result) := leadership_callback_call callback (world s) in
  let s := emit (BecomeFollowerCallbackRun (leadership_callback_name callback)
                   result) (set_world w s) in
  match result with
  | Returned _ => s
  | Threw => emit (ConsoleError "[TabChief] Error in become Follower callback:") s
  end.

Definition notifyBecomeFollowerCallbacks (s : TabChief) : TabChief :=
  fold_left (fun acc callback => notifyBecomeFollowerCallback callback acc)
    (becomeFollowerCallbacks s) s.

(** [setState]: returns early when the state does not change. *)
Definition setState (newState : TabState) (s : TabChief) : TabChief :=
  let oldState := state s in
  if TabState_eqb oldState newState then s
  else
    let s := set_state newState s in
    let s := notifyStateChangeCallbacks newState oldState s in
    if TabState_eqb newState CHIEF && negb (TabState_eqb oldState CHIEF)
    then notifyBecomeChiefCallbacks s
    else if TabState_eqb newState FOLLOWER && TabState_eqb oldState CHIEF
    then notifyBecomeFollowerCallbacks s
    else s.

Definition stopHeartbeat (s : TabChief) : TabChief :=
  match heartbeatTimer s with
  | Some _ => set_heartbeatTimer None s
  | None => s
  end.

Definition clearElectionTimer (s : TabChief) : TabChief :=
  match electionTimer s with
  | Some _ => set_electionTimer None s
  | None => s
  end.

Definition clearTimers (s : TabChief) : TabChief :=
  let s := stopHeartbeat s in
  let s := clearElectionTimer s in
  match electionDebounceTimer s with
  | Some _ => set_electionDebounceTimer None s
  | None => s
  end.

Definition sendHeartbeat (now : Z) (s : TabChief) : TabChief :=
  broadcast (mkMessage HEARTBEAT (tabId s) now None) s.

Definition startHeartbeat (now : Z) (s : TabChief) : TabChief :=
  let s := stopHeartbeat s in
  let s := sendHeartbeat now s in
  set_heartbeatTimer (Some (heartbeatInterval s)) s.

(** [shouldYieldTo]: earlier creation time wins, then the smaller id. *)
Definition shouldYieldTo (s : TabChief) (otherId : string) (otherTimestamp : Z)
  : bool :=
  if negb (otherTimestamp =? creationTimestamp s)
  then otherTimestamp <? creationTimestamp s
  else String.ltb otherId (tabId s).

(** [startElection]: suppressed while the debounce handle is set. *)
Definition startElection (s : TabChief) : TabChief :=
  match electionDebounceTimer s with
  | Some _ => s
  | None =>
      let s := set_electionDebounceTimer (Some ELECTION_DEBOUNCE_TIME) s in
      let s := setState ELECTING s in
      let s := clearElectionTimer s in
      let s := broadcast (mkMessage ELECTION (tabId s) (creationTimestamp s) None) s in
      set_electionTimer (Some (mkTimeout DeclareVictory (electionTimeout s) true)) s
  end.

(** The callback of the timeout armed by [resetElectionTimeout]. *)
Definition chiefSeemsDead (s : TabChief) : TabChief :=
  startElection (set_currentChiefId None s).

Definition resetElectionTimeout (s : TabChief) : TabChief :=
  let s := clearElectionTimer s in
  set_electionTimer (Some (mkTimeout SuspectChief (electionTimeout s) true)) s.

Definition declareVictory (now : Z) (s : TabChief) : TabChief :=
  let s := clearElectionTimer s in
  let s := setState CHIEF s in
  let s := set_currentChiefId (Some (tabId s)) s in
  let s := broadcast (mkMessage VICTORY (tabId s) now None) s in
  let s := startHeartbeat now s in
  runAllTasks s.

Definition becomeFollower (chiefId : string) (s : TabChief) : TabChief :=
  let wasChief := TabState_eqb (state s) CHIEF in
  let s := setState FOLLOWER s in
  let s := set_currentChiefId (Some chiefId) s in
  let s := stopHeartbeat s in
  let s := if wasChief then runCleanups s else s in
  resetElectionTimeout s.

(** ** Message handlers *)

Definition handleHeartbeat (now : Z) (sender : string) (s : TabChief) : TabChief :=
  if TabState_eqb (state s) CHIEF && negb (String.eqb sender (tabId s))
  then
    if shouldYieldTo s sender now then becomeFollower sender s else s
  else if TabState_eqb (state s) ELECTING || TabState_eqb (state s) FOLLOWER
  then becomeFollower sender (set_currentChiefId (Some sender) s)
  else s.

Definition handleElectionRequest (sender : string) (senderTimestamp : Z)
    (s : TabChief) : TabChief :=
  if negb (shouldYieldTo s sender senderTimestamp)
  then
    let s := broadcast (mkMessage ALIVE (tabId s) (creationTimestamp s) None) s in
    if negb (TabState_eqb (state s) CHIEF) then startElection s else s
  else s.

Definition handleAliveResponse (sender : string) (senderTimestamp : Z)
    (s : TabChief) : TabChief :=
  if TabState_eqb (state s) ELECTING
  then
    if shouldYieldTo s sender senderTimestamp
    then
      let s := clearElectionTimer s in
      let s := setState FOLLOWER s in
      resetElectionTimeout s
    else s
  else s.

Definition handleVictory (now : Z) (sender : string) (s : TabChief) : TabChief :=
  if String.eqb sender (tabId s) then s
  else if TabState_eqb (state s) CHIEF
  then
    if shouldYieldTo s sender now
    then becomeFollower sender s
    else broadcast (mkMessage VICTORY (tabId s) now None) s
  else becomeFollower sender s.

Definition handleShutdown (sender : string) (s : TabChief) : TabChief :=
  match currentChiefId s with
  | Some chief =>
      if String.eqb sender chief
      then startElection (set_currentChiefId None s)
      else s
  | None => s
  end.

(** Reading [message.payload]: [undefined] when the property is absent. *)
Definition read_payload (message : ChannelMessage) : Payload :=
  match payload message with
  | Some data => data
  | None => undefined
  end.

(** [handleMessage]: the [onmessage] handler of the channel.  The DATA branch
    passes [message.payload] on, whatever it is. *)
Definition handleMessage (now : Z) (message : ChannelMessage) (s : TabChief)
  : TabChief :=
  if String.eqb (senderId message) (tabId s) then s
  else
    match type message with
    | HEARTBEAT => handleHeartbeat now (senderId message) s
    | ELECTION => handleElectionRequest (senderId message) (timestamp message) s
    | ALIVE => handleAliveResponse (senderId message) (timestamp message) s
    | VICTORY => handleVictory now (senderId message) s
    | DATA => notifyMessageCallbacks (read_payload message) s
    | SHUTDOWN => handleShutdown (senderId message) s
    end.

Definition handleBeforeUnload (now : Z) (s : TabChief) : TabChief :=
  let s :=
    if TabState_eqb (state s) CHIEF
    then broadcast (mkMessage SHUTDOWN (tabId s) now None) s
    else s in
  runCleanups s.

(** ** The public methods *)

Definition start (s : TabChief) : TabChief :=
  if negb (TabState_eqb (state s) IDLE) && negb (TabState_eqb (state s) STOPPED)
  then s
  else
    let s := set_channel true s in
    let s := set_boundBeforeUnload true s in
    startElection s.

Definition stop (now : Z) (s : TabChief) : TabChief :=
  if TabState_eqb (state s) STOPPED || TabState_eqb (state s) IDLE then s
  else
    let s :=
      if TabState_eqb (state s) CHIEF
      then broadcast (mkMessage SHUTDOWN (tabId s) now None) s
      else s in
    let s := runCleanups s in
    let s := clearTimers s in
    let s := if boundBeforeUnload s then set_boundBeforeUnload false s else s in
    let s := if channel s then set_channel false s else s in
    let s := setState STOPPED s in
    set_currentChiefId None s.

Definition runExclusive (task : ExclusiveTask) (s : TabChief) : TabChief :=
  let s := set_exclusiveTasks (exclusiveTasks s ++ [task]) s in
  if TabState_eqb (state s) CHIEF then runTask task s else s.

(** [postMessage]: [this.channel.postMessage(message)] is not guarded; when it
    throws, the exception leaves the method before the local callbacks. *)
Definition postMessage (now : Z) (data : Payload) (s : TabChief) : TabChief :=
  if negb (channel s) || TabState_eqb (state s) STOPPED
     || TabState_eqb (state s) IDLE
  then s
  else
    if cloneable data
    then
      let s := emit (Posted (mkMessage DATA (tabId s) now (Some data))) s in
      notifyMessageCallbacks data s
    else emit (Raised "DataCloneError") s.

(** [indexOf] followed by [splice(index, 1)]. *)
Fixpoint remove_first {A : Type} (same : A -> bool) (l : list A) : list A :=
  match l with
  | [] => []
  | x :: rest => if same x then rest else x :: remove_first same rest
  end.

Definition onMessage (callback : MessageCallback) (s : TabChief) : TabChief :=
  set_messageCallbacks (messageCallbacks s ++ [callback]) s.

Definition offMessage (callback : MessageCallback) (s : TabChief) : TabChief :=
  set_messageCallbacks
    (remove_first
       (fun c => Nat.eqb (message_callback_name c) (message_callback_name callback))
       (messageCallbacks s)) s.

Definition onStateChange (callback : StateChangeCallback) (s : TabChief)
  : TabChief :=
  set_stateChangeCallbacks (stateChangeCallbacks s ++ [callback]) s.

Definition offStateChange (callback : StateChangeCallback) (s : TabChief)
  : TabChief :=
  set_stateChangeCallbacks
    (remove_first
       (fun c => Nat.eqb (state_callback_name c) (state_callback_name callback))
       (stateChangeCallbacks s)) s.

Definition onBecomeChief (callback : LeadershipCallback) (s : TabChief)
  : TabChief :=
  set_becomeChiefCallbacks (becomeChiefCallbacks s ++ [callback]) s.

Definition offBecomeChief (callback : LeadershipCallback) (s : TabChief)
  : TabChief :=
  set_becomeChiefCallbacks
    (remove_first
       (fun c => Nat.eqb (leadership_callback_name c)
                   (leadership_callback_name callback))
       (becomeChiefCallbacks s)) s.

Definition onBecomeFollower (callback : LeadershipCallback) (s : TabChief)
  : TabChief :=
  set_becomeFollowerCallbacks (becomeFollowerCallbacks s ++ [callback]) s.

Definition offBecomeFollower (callback : LeadershipCallback) (s : TabChief)
  : TabChief :=
  set_becomeFollowerCallbacks
    (remove_first
       (fun c => Nat.eqb (leadership_callback_name c)
                   (leadership_callback_name callback))
       (becomeFollowerCallbacks s)) s.

(** ** One instance in its environment

    What can happen to an instance: its owner calls a public method, the
    channel delivers a message, a timer fires, the page is about to unload. *)

Inductive Input : Type :=
| CallStart
| CallStop
| CallRunExclusive (task : ExclusiveTask)
| CallPostMessage (data : Payload)
| CallOnMessage (callback : MessageCallback)
| CallOffMessage (callback : MessageCallback)
| CallOnStateChange (callback : StateChangeCallback)
| CallOffStateChange (callback : StateChangeCallback)
| CallOnBecomeChief (callback : LeadershipCallback)
| CallOffBecomeChief (callback : LeadershipCallback)
| CallOnBecomeFollower (callback : LeadershipCallback)
| CallOffBecomeFollower (callback : LeadershipCallback)
| Deliver (message : ChannelMessage)
| ElectionTimerFires
| HeartbeatTimerFires
| DebounceTimerFires
| BeforeUnload.

(** The callback of the election timer handle, run when the timeout elapses. *)
Definition fireElectionTimer (now : Z) (s : TabChief) : TabChief :=
  match electionTimer s with
  | Some t =>
      if pending t
      then
        let s := set_electionTimer (Some (mkTimeout (action t) (delay t) false)) s in
        match action t with
        | DeclareVictory => declareVictory now s
        | SuspectChief => chiefSeemsDead s
        end
      else s
  | None => s
  end.

(** A closed channel delivers nothing, a cleared timer does not fire, and the
    unload listener runs only while it is registered. *)
Definition step (now : Z) (input : Input) (s : TabChief) : TabChief :=
  match input with
  | CallStart => start s
  | CallStop => stop now s
  | CallRunExclusive task => runExclusive task s
  | CallPostMessage data => postMessage now data s
  | CallOnMessage callback => onMessage callback s
  | CallOffMessage callback => offMessage callback s
  | CallOnStateChange callback => onStateChange callback s
  | CallOffStateChange callback => offStateChange callback s
  | CallOnBecomeChief callback => onBecomeChief callback s
  | CallOffBecomeChief callback => offBecomeChief callback s
  | CallOnBecomeFollower callback => onBecomeFollower callback s
  | CallOffBecomeFollower callback => offBecomeFollower callback s
  | Deliver message => if channel s then handleMessage now message s else s
  | ElectionTimerFires => fireElectionTimer now s
  | HeartbeatTimerFires =>
      match heartbeatTimer s with
      | Some _ => sendHeartbeat now s
      | None => s
      end
  | DebounceTimerFires =>
      match electionDebounceTimer s with
      | Some _ => set_electionDebounceTimer None s
      | None => s
      end
  | BeforeUnload => if boundBeforeUnload s then handleBeforeUnload now s else s
  end.

(** A run: inputs with the clock reading at each, oldest first. *)
Definition run (inputs : list (Z * Input)) (s : TabChief) : TabChief :=
  fold_left (fun acc ni => step (fst ni) (snd ni) acc) inputs s.

(** The states an instance can be in: a fresh one, and what any sequence of
    inputs makes of it. *)
Inductive reachable : TabChief -> Prop :=
| reachable_new : forall tab now name heartbeat election w,
    reachable (new_TabChief tab now name heartbeat election w)
| reachable_step : forall s now input,
    reachable s -> reachable (step now input s).

(** ** Reading a trace *)

(** The effects of going from [s] to [s']: what [s'] has appended. *)
Definition emitted (s s' : TabChief) : list Effect :=
  skipn (List.length (trace s)) (trace s').

Definition posted (es : list Effect) : list ChannelMessage :=
  flat_map (fun e => match e with Posted m => [m] | _ => [] end) es.

Definition tasks_run (es : list Effect) : list nat :=
  flat_map (fun e => match e with TaskRun n _ => [n] | _ => [] end) es.

(** The cleanups handed back by the setups that ran. *)
Definition cleanups_returned (es : list Effect) : list nat :=
  flat_map (fun e => match e with
                     | TaskRun _ (Returned (Some c)) => [c]
                     | _ => []
                     end) es.

Definition cleanups_run (es : list Effect) : list nat :=
  flat_map (fun e => match e with CleanupRun n _ => [n] | _ => [] end) es.

Definition message_calls (es : list Effect) : list (nat * Payload) :=
  flat_map (fun e => match e with
                     | MessageCallbackRun n d _ => [(n, d)]
                     | _ => []
                     end) es.

Definition state_change_calls (es : list Effect)
  : list (nat * TabState * TabState) :=
  flat_map (fun e => match e with
                     | StateChangeCallbackRun n new old _ => [(n, new, old)]
                     | _ => []
                     end) es.

Definition become_chief_calls (es : list Effect) : list nat :=
  flat_map (fun e => match e with
                     | BecomeChiefCallbackRun n _ => [n]
                     | _ => []
                     end) es.

Definition become_follower_calls (es : list Effect) : list nat :=
  flat_map (fun e => match e with
                     | BecomeFollowerCallbackRun n _ => [n]
                     | _ => []
                     end) es.

(** The exceptions that reached the caller. *)
Definition raised (es : list Effect) : list string :=
  flat_map (fun e => match e with Raised error => [error] | _ => [] end) es.

(** The protocol part of an instance: state, tracked chief, transport and
    timers. *)
Definition machine (s : TabChief)
  : TabState * option string * bool * option Z * option Timeout * option Z * bool :=
  (state s, currentChiefId s, channel s, heartbeatTimer s, electionTimer s,
   electionDebounceTimer s, boundBeforeUnload s).

Definition started (st : TabState) : bool :=
  match st with
  | ELECTING | CHIEF | FOLLOWER => true
  | IDLE | STOPPED => false
  end.

(** ** Closures that do not throw

    The same closure with its exception taken away: it does to the page what
    it did, and returns (a setup that threw returns no cleanup). *)

Definition calm (call : W -> W * Completion unit) (w : W) : W * Completion unit :=
  (fst (call w), Returned tt).

Definition calm_cleanup (c : CleanupFunction) : CleanupFunction :=
  mkCleanup (cleanup_name c) (calm (cleanup_call c)).

Definition calm_task (t : ExclusiveTask) : ExclusiveTask :=
  mkTask (task_name t)
    (fun w => match task_call t w with
              | (w', Returned r) => (w', Returned r)
              | (w', Threw) => (w', Returned None)
              end).

Definition calm_message_callback (c : MessageCallback) : MessageCallback :=
  mkMessageCallback (message_callback_name c)
    (fun data => calm (message_callback_call c data)).

Definition calm_state_callback (c : StateChangeCallback) : StateChangeCallback :=
  mkStateChangeCallback (state_callback_name c)
    (fun new old => calm (state_callback_call c new old)).

Definition calm_leadership_callback (c : LeadershipCallback) : LeadershipCallback :=
  mkLeadershipCallback (leadership_callback_name c)
    (calm (leadership_callback_call c)).

(** ** The effects of the loops, as functions of the page *)

Definition with_env (w : W) (es : list Effect) (s : TabChief) : TabChief :=
  mkTabChief (tabId s) (channelName s) (heartbeatInterval s) (electionTimeout s)
    (creationTimestamp s) (channel s) (state s) (currentChiefId s)
    (heartbeatTimer s) (electionTimer s) (electionDebounceTimer s)
    (exclusiveTasks s) (activeCleanups s) (messageCallbacks s)
    (stateChangeCallbacks s) (becomeChiefCallbacks s) (becomeFollowerCallbacks s)
    (boundBeforeUnload s) w (trace s ++ es).

(** A guarded call: the effect of the call, then the report if it threw. *)
Definition guarded_env (mk : Completion unit -> Effect) (text : string)
    (call : W -> W * Completion unit) (w : W) : W * list Effect :=
  let (w', r) := call w in
  (w', mk r :: match r with Returned _ => [] | Threw => [ConsoleError text] end).

Fixpoint fanout_env {C : Type} (g : C -> W -> W * list Effect) (l : list C)
    (w : W) : W * list Effect :=
  match l with
  | [] => (w, [])
  | c :: rest =>
      let (w1, e1) := g c w in
      let (w2, e2) := fanout_env g rest w1 in
      (w2, e1 ++ e2)
  end.

Definition cleanup_env (c : CleanupFunction) : W -> W * list Effect :=
  guarded_env (CleanupRun (cleanup_name c)) "[TabChief] Error running cleanup:"
    (cleanup_call c).

Definition message_env (data : Payload) (c : MessageCallback)
  : W -> W * list Effect :=
  guarded_env (MessageCallbackRun (message_callback_name c) data)
    "[TabChief] Error in message callback:" (message_callback_call c data).

Definition state_change_env (new old : TabState) (c : StateChangeCallback)
  : W -> W * list Effect :=
  guarded_env (StateChangeCallbackRun (state_callback_name c) new old)
    "[TabChief] Error in state change callback:" (state_callback_call c new old).

Definition become_chief_env (c : LeadershipCallback) : W -> W * list Effect :=
  guarded_env (BecomeChiefCallbackRun (leadership_callback_name c))
    "[TabChief] Error in become Chief callback:" (leadership_callback_call c).

Definition become_follower_env (c : LeadershipCallback) : W -> W * list Effect :=
  guarded_env (BecomeFollowerCallbackRun (leadership_callback_name c))
    "[TabChief] Error in become Follower callback:" (leadership_callback_call c).

(** The page, the effects and the cleanups handed back by one setup. *)
Definition task_env (t : ExclusiveTask) (w : W)
  : W * list Effect * list CleanupFunction :=
  let (w', r) := task_call t w in
  (w',
   TaskRun (task_name t) (completion_map (option_map cleanup_name) r)
     :: match r with
        | Returned _ => []
        | Threw => [ConsoleError "[TabChief] Error running exclusive task:"]
        end,
   match r with Returned (Some c) => [c] | _ => [] end).

Fixpoint tasks_env (l : list ExclusiveTask) (w : W)
  : W * list Effect * list CleanupFunction :=
  match l with
  | [] => (w, [], [])
  | t :: rest =>
      match task_env t w with
      | (w1, e1, c1) =>
          match tasks_env rest w1 with
          | (w2, e2, c2) => (w2, e1 ++ e2, c1 ++ c2)
          end
      end
  end.

(** What [setState] does to the page: nothing when the state stays, else the
    state-change callbacks and then the leadership callbacks of the
    transition. *)
Definition setState_env (new old : TabState)
    (onChange : list StateChangeCallback) (onChief onFollower : list LeadershipCallback)
    (w : W) : W * list Effect :=
  if TabState_eqb old new then (w, [])
  else
    let (w1, e1) := fanout_env (state_change_env new old) onChange w in
    if TabState_eqb new CHIEF && negb (TabState_eqb old CHIEF)
    then
      let (w2, e2) := fanout_env become_chief_env onChief w1 in
      (w2, e1 ++ e2)
    else if TabState_eqb new FOLLOWER && TabState_eqb old CHIEF
    then
      let (w2, e2) := fanout_env become_follower_env onFollower w1 in
      (w2, e1 ++ e2)
    else (w1, e1).

(** ** Several instances on a broadcast channel

    [BroadcastChannel.postMessage] queues the message for every other channel
    object of the same name that is open when the message is posted; each
    copy is delivered later, on its own, unless its receiver has closed. *)

Record Network : Type := mkNetwork {
  peers : list TabChief;
  inflight : list (nat * ChannelMessage)   (* receiver, message *)
}.

Inductive NetEvent : Type :=
| AtPeer (i : nat) (input : Input)   (* a call, a timer or an unload at peer i *)
| Arrive (k : nat).                  (* the k-th message in flight arrives *)

Fixpoint replace_nth {A : Type} (n : nat) (x : A) (l : list A) : list A :=
  match l, n with
  | [], _ => []
  | _ :: rest, O => x :: rest
  | y :: rest, S m => y :: replace_nth m x rest
  end.

Fixpoint remove_nth {A : Type} (n : nat) (l : list A) : list A :=
  match l, n with
  | [], _ => []
  | _ :: rest, O => rest
  | y :: rest, S m => y :: remove_nth m rest
  end.

(** The peers that hear peer [from]: the others with an open channel of the
    same name. *)
Fixpoint recipients_from (j from : nat) (name : string) (ps : list TabChief)
  : list nat :=
  match ps with
  | [] => []
  | p :: rest =>
      if negb (Nat.eqb j from) && channel p && String.eqb (channelName p) name
      then j :: recipients_from (S j) from name rest
      else recipients_from (S j) from name rest
  end.

Definition outgoing (from : nat) (before after : TabChief) (ps : list TabChief)
  : list (nat * ChannelMessage) :=
  flat_map
    (fun m => map (fun j => (j, m))
                (recipients_from 0 from (channelName before) ps))
    (posted (emitted before after)).

Definition peer_step (now : Z) (i : nat) (input : Input) (pending_msgs :
    list (nat * ChannelMessage)) (net : Network) : Network :=
  match nth_error (peers net) i with
  | Some p =>
      let p' := step now input p in
      mkNetwork (replace_nth i p' (peers net))
        (pending_msgs ++ outgoing i p p' (peers net))
  | None => mkNetwork (peers net) pending_msgs
  end.

Definition net_step (now : Z) (ev : NetEvent) (net : Network) : Network :=
  match ev with
  | AtPeer i input => peer_step now i input (inflight net) net
  | Arrive k =>
      match nth_error (inflight net) k with
      | Some (receiver, m) =>
          peer_step now receiver (Deliver m) (remove_nth k (inflight net)) net
      | None => net
      end
  end.

Definition net_run (events : list (Z * NetEvent)) (net : Network) : Network :=
  fold_left (fun acc ne => net_step (fst ne) (snd ne) acc) events net.

(** An input that is not a call of [stop()]. *)
Definition not_stop (input : Input) : bool :=
  match input with
  | CallStop => false
  | _ => true
  end.

Definition no_stop (ev : NetEvent) : bool :=
  match ev with
  | AtPeer _ input => not_stop input
  | Arrive _ => true
  end.

(** Two instances that agree on the protocol state, on the page and on the
    cleanups that are active. *)
Definition same_outcome (a b : TabChief) : Prop :=
  machine a = machine b /\ world a = world b
  /\ activeCleanups a = activeCleanups b.

(** What holds of every instance that can be reached: the channel is open
    and the unload listener registered exactly in the started states; a
    stopped or fresh instance holds no timer;
    a chief tracks itself and waits for no election timeout; only a chief has
    active cleanups; and the cleanups handed back so far are the ones that
    have run followed by the ones that are active. *)
Definition wellformed (s : TabChief) : Prop :=
  channel s = started (state s)
  /\ boundBeforeUnload s = started (state s)
  /\ (started (state s) = false ->
      heartbeatTimer s = None /\ electionTimer s = None
      /\ electionDebounceTimer s = None)
  /\ (state s = CHIEF ->
      currentChiefId s = Some (tabId s) /\ electionTimer s = None)
  /\ (state s <> CHIEF -> activeCleanups s = [])
  /\ cleanups_returned (trace s) =
     cleanups_run (trace s) ++ map cleanup_name (activeCleanups s).

(** A chief whose creation time lies before [since], tracking itself, with
    no election timeout armed. *)
Definition entrenched (since : Z) (s : TabChief) : Prop :=
  state s = CHIEF
  /\ currentChiefId s = Some (tabId s)
  /\ electionTimer s = None
  /\ creationTimestamp s < since.

(** ** Scenarios

    Tabs created at known times, on a page in state [w]. *)

(** A task that opens a socket on the page and hands back the cleanup that
    closes it. *)
Definition socket_cleanup (close : W -> W) : CleanupFunction :=
  mkCleanup 1 (fun w => (close w, Returned tt)).

Definition socket_task (open close : W -> W) : ExclusiveTask :=
  mkTask 1 (fun w => (open w, Returned (Some (socket_cleanup close)))).

Definition quiet_observer : MessageCallback :=
  mkMessageCallback 1 (fun _ w => (w, Returned tt)).

(** Tab a: created at 100, with a heartbeat every 200 ms and an election
    timeout of 500 ms. *)
Definition tab_a (w : W) : TabChief :=
  new_TabChief "a" 100 "tab-chief-default" 200 500 w.

(** Tab b: created at 200, with the default timing. *)
Definition tab_b (w : W) : TabChief :=
  new_TabChief "b" 200 "tab-chief-default" DEFAULT_HEARTBEAT_INTERVAL
    DEFAULT_ELECTION_TIMEOUT w.

(** Tab a with a task and an observer, started at 3300, its debounce window
    over. *)
Definition candidate_a (w : W) (open close : W -> W) : TabChief :=
  run [(3290, CallRunExclusive (socket_task open close));
       (3295, CallOnMessage quiet_observer);
       (3300, CallStart); (3400, DebounceTimerFires)] (tab_a w).

(** The same tab, elected at 3800. *)
Definition chief_a (w : W) (open close : W -> W) : TabChief :=
  step 3800 ElectionTimerFires (candidate_a w open close).

(** Tab a just after [start()]. *)
Definition electing_a (w : W) : TabChief := run [(3300, CallStart)] (tab_a w).

(** Tab b, started at 200, that has conceded to an older peer at 210: a
    FOLLOWER whose debounce window (until 300) is still armed. *)
Definition follower_b (w : W) : TabChief :=
  run [(200, CallStart); (210, Deliver (mkMessage ALIVE "0" 50 None))] (tab_b w).

(** Two tabs on one channel.  Tab b starts first and is elected at 3200.
    Tab a, the older one, starts at 3300; its ELECTION reaches b at once; its
    election timer fires at 3800, before the next heartbeat of b is due
    (4200).  Every message is delivered as soon as it is posted. *)
Definition two_tabs (w : W) : Network := mkNetwork [tab_a w; tab_b w] [].

Definition split_brain_schedule : list (Z * NetEvent) :=
  [ (200, AtPeer 1 CallStart);
    (300, AtPeer 1 DebounceTimerFires);
    (3200, AtPeer 1 ElectionTimerFires);
    (3300, AtPeer 0 CallStart);
    (3301, Arrive 0);
    (3400, AtPeer 0 DebounceTimerFires);
    (3800, AtPeer 0 ElectionTimerFires) ].

Definition two_chiefs (w : W) : Network :=
  net_run split_brain_schedule (two_tabs w).

(** The same two tabs, both with the default timing, started one
    millisecond apart.  The ELECTION of a is posted before b listens; the
    ELECTION of b is still in flight to a when both election timers fire. *)
Definition tab_a_default (w : W) : TabChief :=
  new_TabChief "a" 100 "tab-chief-default" DEFAULT_HEARTBEAT_INTERVAL
    DEFAULT_ELECTION_TIMEOUT w.

Definition late_delivery_schedule : list (Z * NetEvent) :=
  [ (1000, AtPeer 0 CallStart);
    (1001, AtPeer 1 CallStart);
    (1100, AtPeer 0 DebounceTimerFires);
    (1101, AtPeer 1 DebounceTimerFires);
    (4000, AtPeer 0 ElectionTimerFires);
    (4001, AtPeer 1 ElectionTimerFires) ].

Definition two_chiefs_late (w : W) : Network :=
  net_run late_delivery_schedule (mkNetwork [tab_a_default w; tab_b w] []).

(** The messages in flight arrive, each answer as well. *)
Definition victory_exchange : list (Z * NetEvent) :=
  [ (4002, Arrive 0); (4003, Arrive 0); (4004, Arrive 0); (4005, Arrive 0) ].

(** Tab a, started at 3300, that follows b since the heartbeat of b at 3350;
    its debounce window is over. *)
Definition follower_a (w : W) : TabChief :=
  run [(3350, Deliver (mkMessage HEARTBEAT "b" 3350 None));
       (3400, DebounceTimerFires)] (electing_a w).

(** Tab a with a task registered, not started yet. *)
Definition idle_a (w : W) (open close : W -> W) : TabChief :=
  step 3290 (CallRunExclusive (socket_task open close)) (tab_a w).

(** ** Further vocabulary *)

(** What every reachable instance keeps besides [wellformed]: the heartbeat
    interval timer is set exactly while CHIEF, with the configured period;
    only a chief tracks itself, and an instance that is not started tracks
    nobody; an ELECTING instance has its election timeout pending; a FOLLOWER
    holds the handle of a liveness timeout. *)
Definition timers_follow_state (s : TabChief) : Prop :=
  heartbeatTimer s =
    (if TabState_eqb (state s) CHIEF then Some (heartbeatInterval s) else None)
  /\ (currentChiefId s = Some (tabId s) -> state s = CHIEF)
  /\ (started (state s) = false -> currentChiefId s = None)
  /\ (state s = ELECTING ->
      electionTimer s = Some (mkTimeout DeclareVictory (electionTimeout s) true))
  /\ (state s = FOLLOWER ->
      exists p, electionTimer s =
                Some (mkTimeout SuspectChief (electionTimeout s) p)).

(** The inputs that come from the surroundings and not from the owner of the
    instance: deliveries, timers, the unload event. *)
Definition from_environment (input : Input) : bool :=
  match input with
  | Deliver _ | ElectionTimerFires | HeartbeatTimerFires | DebounceTimerFires
  | BeforeUnload => true
  | _ => false
  end.

(** A message as instance [s] builds it at clock reading [now]: its own id;
    the creation timestamp on ELECTION and ALIVE, the clock on the other
    kinds; a payload on DATA only. *)
Definition stamped_by (s : TabChief) (now : Z) (m : ChannelMessage) : Prop :=
  senderId m = tabId s
  /\ match type m with
     | ELECTION | ALIVE => timestamp m = creationTimestamp s /\ payload m = None
     | DATA => timestamp m = now /\ payload m <> None
     | HEARTBEAT | VICTORY | SHUTDOWN => timestamp m = now /\ payload m = None
     end.

(** What [new TabChief(options)] never changes afterwards. *)
Definition identity (s : TabChief) : string * string * Z * Z * Z :=
  (tabId s, channelName s, heartbeatInterval s, electionTimeout s,
   creationTimestamp s).

(** The four observer registries and the task registry. *)
Definition registries (s : TabChief)
  : list ExclusiveTask * list MessageCallback * list StateChangeCallback
    * list LeadershipCallback * list LeadershipCallback :=
  (exclusiveTasks s, messageCallbacks s, stateChangeCallbacks s,
   becomeChiefCallbacks s, becomeFollowerCallbacks s).

(** The page after every entry of [l] has been called, in order, from the
    page [w], whatever each call returns or throws. *)
Definition called_in_order {C : Type} (call : C -> W -> W * Completion unit)
    (l : list C) (w : W) : W :=
  fold_left (fun page c => fst (call c page)) l w.

(** The page and the active cleanups after every setup of [l] has been called,
    in order, from the page [w]: a setup that returns a function adds it,
    one that returns nothing or throws adds none. *)
Definition set_up (l : list ExclusiveTask) (w : W) (active : list CleanupFunction)
  : W * list CleanupFunction :=
  fold_left
    (fun acc task =>
       (fst (task_call task (fst acc)),
        snd acc ++ match snd (task_call task (fst acc)) with
                   | Returned (Some cleanup) => [cleanup]
                   | _ => []
                   end))
    l (w, active).

(** The page after [setState] has told the observers of [s] that the state
    went from [old] to [new]: the state-change callbacks, then the
    become-chief callbacks on the way into CHIEF, or the become-follower
    callbacks on the way from CHIEF to FOLLOWER. *)
Definition told (new old : TabState) (s : TabChief) (w : W) : W :=
  if TabState_eqb old new then w
  else
    let w1 :=
      called_in_order (fun c => state_callback_call c new old)
        (stateChangeCallbacks s) w in
    if TabState_eqb new CHIEF && negb (TabState_eqb old CHIEF)
    then called_in_order leadership_callback_call (becomeChiefCallbacks s) w1
    else if TabState_eqb new FOLLOWER && TabState_eqb old CHIEF
    then called_in_order leadership_callback_call (becomeFollowerCallbacks s) w1
    else w1.

(** [after] is [before] without its first entry named [n], if there is one:
    what [indexOf] followed by [splice(index, 1)] does to a registry. *)
Definition removes_first {A : Type} (name : A -> nat) (n : nat)
    (before after : list A) : Prop :=
  (~ In n (map name before) /\ after = before)
  \/ (exists l1 x l2,
         before = l1 ++ x :: l2 /\ name x = n /\ ~ In n (map name l1)
         /\ after = l1 ++ l2).

(** * Properties *)

(** ** Traces *)

Lemma emitted_app (s s' : TabChief) (es : list Effect) :
  trace s' = trace s ++ es -> emitted s s' = es.
Proof.
  intros H. unfold emitted. rewrite H.
  rewrite skipn_app, skipn_all, Nat.sub_diag. reflexivity.
Qed.

Lemma emitted_refl (s : TabChief) : emitted s s = [].
Proof. apply emitted_app. now rewrite app_nil_r. Qed.

Lemma with_env_same (s : TabChief) : with_env (world s) [] s = s.
Proof. destruct s. unfold with_env. simpl. now rewrite app_nil_r. Qed.

Lemma with_env_twice (w1 w2 : W) (e1 e2 : list Effect) (s : TabChief) :
  with_env w2 e2 (with_env w1 e1 s) = with_env w2 (e1 ++ e2) s.
Proof. unfold with_env. simpl. now rewrite app_assoc. Qed.

(** A loop of guarded calls does to an instance what [fanout_env] says, and
    nothing else. *)
Lemma fold_left_with_env {C : Type} (f : C -> TabChief -> TabChief)
    (g : C -> W -> W * list Effect) :
  (forall c s, f c s = with_env (fst (g c (world s))) (snd (g c (world s))) s) ->
  forall l s,
    fold_left (fun acc c => f c acc) l s =
    with_env (fst (fanout_env g l (world s))) (snd (fanout_env g l (world s))) s.
Proof.
  intros Hf. induction l as [|c rest IH]; intros s; simpl.
  - symmetry. apply with_env_same.
  - rewrite IH, Hf.
    change (world (with_env ?w ?e s)) with w.
    destruct (g c (world s)) as [w1 e1]. simpl.
    destruct (fanout_env g rest w1) as [w2 e2]. simpl.
    apply with_env_twice.
Qed.

Lemma guarded_step (mk : Completion unit -> Effect) (text : string)
    (call : W -> W * Completion unit) (s : TabChief) :
  (let (w, result) := call (world s) in
   let s' := emit (mk result) (set_world w s) in
   match result with
   | Returned _ => s'
   | Threw => emit (ConsoleError text) s'
   end) =
  with_env (fst (guarded_env mk text call (world s)))
    (snd (guarded_env mk text call (world s))) s.
Proof.
  unfold guarded_env. destruct (call (world s)) as [w [a|]]; simpl;
    unfold with_env, emit, set_world; simpl; try reflexivity.
  now rewrite <- app_assoc.
Qed.

Lemma runCleanups_eq (s : TabChief) :
  runCleanups s =
  set_activeCleanups []
    (with_env (fst (fanout_env cleanup_env (activeCleanups s) (world s)))
       (snd (fanout_env cleanup_env (activeCleanups s) (world s))) s).
Proof.
  unfold runCleanups. f_equal. apply fold_left_with_env.
  intros c s0. apply guarded_step.
Qed.

Lemma notifyMessageCallbacks_eq (data : Payload) (s : TabChief) :
  notifyMessageCallbacks data s =
  with_env (fst (fanout_env (message_env data) (messageCallbacks s) (world s)))
    (snd (fanout_env (message_env data) (messageCallbacks s) (world s))) s.
Proof.
  unfold notifyMessageCallbacks. apply fold_left_with_env.
  intros c s0. apply guarded_step.
Qed.

Lemma notifyStateChangeCallbacks_eq (new old : TabState) (s : TabChief) :
  notifyStateChangeCallbacks new old s =
  with_env
    (fst (fanout_env (state_change_env new old) (stateChangeCallbacks s) (world s)))
    (snd (fanout_env (state_change_env new old) (stateChangeCallbacks s) (world s)))
    s.
Proof.
  unfold notifyStateChangeCallbacks. apply fold_left_with_env.
  intros c s0. apply guarded_step.
Qed.

Lemma notifyBecomeChiefCallbacks_eq (s : TabChief) :
  notifyBecomeChiefCallbacks s =
  with_env (fst (fanout_env become_chief_env (becomeChiefCallbacks s) (world s)))
    (snd (fanout_env become_chief_env (becomeChiefCallbacks s) (world s))) s.
Proof.
  unfold notifyBecomeChiefCallbacks. apply fold_left_with_env.
  intros c s0. apply guarded_step.
Qed.

Lemma notifyBecomeFollowerCallbacks_eq (s : TabChief) :
  notifyBecomeFollowerCallbacks s =
  with_env
    (fst (fanout_env become_follower_env (becomeFollowerCallbacks s) (world s)))
    (snd (fanout_env become_follower_env (becomeFollowerCallbacks s) (world s))) s.
Proof.
  unfold notifyBecomeFollowerCallbacks. apply fold_left_with_env.
  intros c s0. apply guarded_step.
Qed.

Lemma runTask_eq (task : ExclusiveTask) (s : TabChief) :
  runTask task s =
  set_activeCleanups (activeCleanups s ++ snd (task_env task (world s)))
    (with_env (fst (fst (task_env task (world s))))
       (snd (fst (task_env task (world s)))) s).
Proof.
  unfold runTask, task_env.
  destruct (task_call task (world s)) as [w [[c|]|]]; simpl;
    unfold with_env, emit, set_world, set_activeCleanups; simpl;
    rewrite ?app_nil_r, <- ?app_assoc; reflexivity.
Qed.

Lemma runAllTasks_fold (l : list ExclusiveTask) (s : TabChief) :
  fold_left (fun acc task => runTask task acc) l s =
  set_activeCleanups (activeCleanups s ++ snd (tasks_env l (world s)))
    (with_env (fst (fst (tasks_env l (world s))))
       (snd (fst (tasks_env l (world s)))) s).
Proof.
  revert s. induction l as [|t rest IH]; intros s; simpl.
  - destruct s. unfold set_activeCleanups, with_env. simpl.
    now rewrite !app_nil_r.
  - rewrite IH, runTask_eq.
    destruct (task_env t (world s)) as [[w1 e1] c1]. simpl.
    destruct (tasks_env rest w1) as [[w2 e2] c2]. simpl.
    unfold set_activeCleanups, with_env. simpl.
    now rewrite !app_assoc.
Qed.

Lemma runAllTasks_eq (s : TabChief) :
  runAllTasks s =
  set_activeCleanups
    (activeCleanups s ++ snd (tasks_env (exclusiveTasks s) (world s)))
    (with_env (fst (fst (tasks_env (exclusiveTasks s) (world s))))
       (snd (fst (tasks_env (exclusiveTasks s) (world s)))) s).
Proof. apply runAllTasks_fold. Qed.

Lemma set_state_same (s : TabChief) : set_state (state s) s = s.
Proof. now destruct s. Qed.

Lemma setState_eq (new : TabState) (s : TabChief) :
  setState new s =
  with_env
    (fst (setState_env new (state s) (stateChangeCallbacks s)
            (becomeChiefCallbacks s) (becomeFollowerCallbacks s) (world s)))
    (snd (setState_env new (state s) (stateChangeCallbacks s)
            (becomeChiefCallbacks s) (becomeFollowerCallbacks s) (world s)))
    (set_state new s).
Proof.
  unfold setState, setState_env.
  destruct (TabState_eqb (state s) new) eqn:Hsame.
  - assert (state s = new) as <- by (destruct (state s), new; easy).
    simpl. now rewrite set_state_same, with_env_same.
  - rewrite notifyStateChangeCallbacks_eq.
    change (stateChangeCallbacks (set_state new s)) with (stateChangeCallbacks s).
    change (world (set_state new s)) with (world s).
    destruct (fanout_env (state_change_env new (state s)) (stateChangeCallbacks s)
                (world s)) as [w1 e1]. simpl fst. simpl snd.
    destruct (TabState_eqb new CHIEF && negb (TabState_eqb (state s) CHIEF)).
    + rewrite notifyBecomeChiefCallbacks_eq.
      change (becomeChiefCallbacks (with_env w1 e1 (set_state new s)))
        with (becomeChiefCallbacks s).
      change (world (with_env w1 e1 (set_state new s))) with w1.
      destruct (fanout_env become_chief_env (becomeChiefCallbacks s) w1) as [w2 e2].
      apply with_env_twice.
    + destruct (TabState_eqb new FOLLOWER && TabState_eqb (state s) CHIEF).
      * rewrite notifyBecomeFollowerCallbacks_eq.
        change (becomeFollowerCallbacks (with_env w1 e1 (set_state new s)))
          with (becomeFollowerCallbacks s).
        change (world (with_env w1 e1 (set_state new s))) with w1.
        destruct (fanout_env become_follower_env (becomeFollowerCallbacks s) w1)
          as [w2 e2].
        apply with_env_twice.
      * reflexivity.
Qed.

(** The guarded clears: clearing a handle that is not set changes nothing. *)
Lemma stopHeartbeat_eq (s : TabChief) : stopHeartbeat s = set_heartbeatTimer None s.
Proof. unfold stopHeartbeat. destruct s as [? ? ? ? ? ? ? ? []]; reflexivity. Qed.

Lemma clearElectionTimer_eq (s : TabChief) :
  clearElectionTimer s = set_electionTimer None s.
Proof.
  unfold clearElectionTimer. destruct s as [? ? ? ? ? ? ? ? ? []]; reflexivity.
Qed.

Lemma clearTimers_eq (s : TabChief) :
  clearTimers s =
  set_electionDebounceTimer None (set_electionTimer None (set_heartbeatTimer None s)).
Proof.
  unfold clearTimers. rewrite stopHeartbeat_eq, clearElectionTimer_eq.
  destruct s as [? ? ? ? ? ? ? ? ? ? []]; reflexivity.
Qed.

Lemma broadcast_eq (message : ChannelMessage) (s : TabChief) :
  broadcast message s =
  with_env (world s) (if channel s then [Posted message] else []) s.
Proof.
  unfold broadcast. destruct (channel s).
  - reflexivity.
  - symmetry. apply with_env_same.
Qed.

(** ** What each loop leaves in the trace

    Each loop calls every entry of its list once, in order, whatever the
    entries do; it posts nothing and calls nothing else. *)

Lemma flat_map_single {A B : Type} (f : A -> B) (l : list A) :
  flat_map (fun x => [f x]) l = map f l.
Proof. induction l as [|x l IH]; simpl; congruence. Qed.

Lemma flat_map_none {A B : Type} (l : list A) :
  flat_map (fun _ : A => @nil B) l = [].
Proof. induction l as [|x l IH]; simpl; congruence. Qed.

Lemma flat_map_guarded {B : Type} (h : Effect -> list B)
    (mk : Completion unit -> Effect) (text : string)
    (call : W -> W * Completion unit) (w : W) (v : list B) :
  (forall r, h (mk r) = v) -> h (ConsoleError text) = [] ->
  flat_map h (snd (guarded_env mk text call w)) = v.
Proof.
  intros Hmk Herr. unfold guarded_env.
  destruct (call w) as [w' [a|]]; simpl; rewrite Hmk, ?Herr, ?app_nil_r;
    reflexivity.
Qed.

Lemma flat_map_fanout {C B : Type} (h : Effect -> list B)
    (g : C -> W -> W * list Effect) (k : C -> list B) :
  (forall c w, flat_map h (snd (g c w)) = k c) ->
  forall l w, flat_map h (snd (fanout_env g l w)) = flat_map k l.
Proof.
  intros Hg. induction l as [|c l IH]; intros w; simpl; [reflexivity|].
  specialize (Hg c w). destruct (g c w) as [w1 e1].
  specialize (IH w1). destruct (fanout_env g l w1) as [w2 e2].
  simpl in *. now rewrite flat_map_app, Hg, IH.
Qed.

Ltac loop_calls k finish :=
  intros;
  match goal with
  | |- ?p (snd (fanout_env ?g ?l ?w)) = _ =>
      unfold p; rewrite (flat_map_fanout _ g k);
      [ apply finish
      | intros; apply flat_map_guarded; intros; reflexivity ]
  end.

Lemma posted_cleanup_env (l : list CleanupFunction) (w : W) :
  posted (snd (fanout_env cleanup_env l w)) = [].
Proof. loop_calls (fun _ : CleanupFunction => @nil ChannelMessage) @flat_map_none. Qed.

Lemma tasks_run_cleanup_env (l : list CleanupFunction) (w : W) :
  tasks_run (snd (fanout_env cleanup_env l w)) = [].
Proof. loop_calls (fun _ : CleanupFunction => @nil nat) @flat_map_none. Qed.

Lemma cleanups_returned_cleanup_env (l : list CleanupFunction) (w : W) :
  cleanups_returned (snd (fanout_env cleanup_env l w)) = [].
Proof. loop_calls (fun _ : CleanupFunction => @nil nat) @flat_map_none. Qed.

Lemma cleanups_run_cleanup_env (l : list CleanupFunction) (w : W) :
  cleanups_run (snd (fanout_env cleanup_env l w)) = map cleanup_name l.
Proof. loop_calls (fun c : CleanupFunction => [cleanup_name c]) @flat_map_single. Qed.

Lemma message_calls_cleanup_env (l : list CleanupFunction) (w : W) :
  message_calls (snd (fanout_env cleanup_env l w)) = [].
Proof. loop_calls (fun _ : CleanupFunction => @nil (nat * Payload)%type) @flat_map_none. Qed.

Lemma state_change_calls_cleanup_env (l : list CleanupFunction) (w : W) :
  state_change_calls (snd (fanout_env cleanup_env l w)) = [].
Proof. loop_calls (fun _ : CleanupFunction => @nil (nat * TabState * TabState)%type) @flat_map_none. Qed.

Lemma become_chief_calls_cleanup_env (l : list CleanupFunction) (w : W) :
  become_chief_calls (snd (fanout_env cleanup_env l w)) = [].
Proof. loop_calls (fun _ : CleanupFunction => @nil nat) @flat_map_none. Qed.

Lemma become_follower_calls_cleanup_env (l : list CleanupFunction) (w : W) :
  become_follower_calls (snd (fanout_env cleanup_env l w)) = [].
Proof. loop_calls (fun _ : CleanupFunction => @nil nat) @flat_map_none. Qed.

Lemma posted_message_env (data : Payload) (l : list MessageCallback) (w : W) :
  posted (snd (fanout_env (message_env data) l w)) = [].
Proof. loop_calls (fun _ : MessageCallback => @nil ChannelMessage) @flat_map_none. Qed.

Lemma raised_message_env (data : Payload) (l : list MessageCallback) (w : W) :
  raised (snd (fanout_env (message_env data) l w)) = [].
Proof. loop_calls (fun _ : MessageCallback => @nil string) @flat_map_none. Qed.

Lemma tasks_run_message_env (data : Payload) (l : list MessageCallback) (w : W) :
  tasks_run (snd (fanout_env (message_env data) l w)) = [].
Proof. loop_calls (fun _ : MessageCallback => @nil nat) @flat_map_none. Qed.

Lemma cleanups_returned_message_env (data : Payload) (l : list MessageCallback) (w : W) :
  cleanups_returned (snd (fanout_env (message_env data) l w)) = [].
Proof. loop_calls (fun _ : MessageCallback => @nil nat) @flat_map_none. Qed.

Lemma cleanups_run_message_env (data : Payload) (l : list MessageCallback) (w : W) :
  cleanups_run (snd (fanout_env (message_env data) l w)) = [].
Proof. loop_calls (fun _ : MessageCallback => @nil nat) @flat_map_none. Qed.

Lemma message_calls_message_env (data : Payload) (l : list MessageCallback) (w : W) :
  message_calls (snd (fanout_env (message_env data) l w)) = map (fun c => (message_callback_name c, data)) l.
Proof. loop_calls (fun c : MessageCallback => [(fun c => (message_callback_name c, data)) c]) @flat_map_single. Qed.

Lemma state_change_calls_message_env (data : Payload) (l : list MessageCallback) (w : W) :
  state_change_calls (snd (fanout_env (message_env data) l w)) = [].
Proof. loop_calls (fun _ : MessageCallback => @nil (nat * TabState * TabState)%type) @flat_map_none. Qed.

Lemma become_chief_calls_message_env (data : Payload) (l : list MessageCallback) (w : W) :
  become_chief_calls (snd (fanout_env (message_env data) l w)) = [].
Proof. loop_calls (fun _ : MessageCallback => @nil nat) @flat_map_none. Qed.

Lemma become_follower_calls_message_env (data : Payload) (l : list MessageCallback) (w : W) :
  become_follower_calls (snd (fanout_env (message_env data) l w)) = [].
Proof. loop_calls (fun _ : MessageCallback => @nil nat) @flat_map_none. Qed.

Lemma posted_state_change_env (new old : TabState) (l : list StateChangeCallback) (w : W) :
  posted (snd (fanout_env (state_change_env new old) l w)) = [].
Proof. loop_calls (fun _ : StateChangeCallback => @nil ChannelMessage) @flat_map_none. Qed.

Lemma tasks_run_state_change_env (new old : TabState) (l : list StateChangeCallback) (w : W) :
  tasks_run (snd (fanout_env (state_change_env new old) l w)) = [].
Proof. loop_calls (fun _ : StateChangeCallback => @nil nat) @flat_map_none. Qed.

Lemma cleanups_returned_state_change_env (new old : TabState) (l : list StateChangeCallback) (w : W) :
  cleanups_returned (snd (fanout_env (state_change_env new old) l w)) = [].
Proof. loop_calls (fun _ : StateChangeCallback => @nil nat) @flat_map_none. Qed.

Lemma cleanups_run_state_change_env (new old : TabState) (l : list StateChangeCallback) (w : W) :
  cleanups_run (snd (fanout_env (state_change_env new old) l w)) = [].
Proof. loop_calls (fun _ : StateChangeCallback => @nil nat) @flat_map_none. Qed.

Lemma message_calls_state_change_env (new old : TabState) (l : list StateChangeCallback) (w : W) :
  message_calls (snd (fanout_env (state_change_env new old) l w)) = [].
Proof. loop_calls (fun _ : StateChangeCallback => @nil (nat * Payload)%type) @flat_map_none. Qed.

Lemma state_change_calls_state_change_env (new old : TabState) (l : list StateChangeCallback) (w : W) :
  state_change_calls (snd (fanout_env (state_change_env new old) l w)) = map (fun c => (state_callback_name c, new, old)) l.
Proof. loop_calls (fun c : StateChangeCallback => [(fun c => (state_callback_name c, new, old)) c]) @flat_map_single. Qed.

Lemma become_chief_calls_state_change_env (new old : TabState) (l : list StateChangeCallback) (w : W) :
  become_chief_calls (snd (fanout_env (state_change_env new old) l w)) = [].
Proof. loop_calls (fun _ : StateChangeCallback => @nil nat) @flat_map_none. Qed.

Lemma become_follower_calls_state_change_env (new old : TabState) (l : list StateChangeCallback) (w : W) :
  become_follower_calls (snd (fanout_env (state_change_env new old) l w)) = [].
Proof. loop_calls (fun _ : StateChangeCallback => @nil nat) @flat_map_none. Qed.

Lemma posted_become_chief_env (l : list LeadershipCallback) (w : W) :
  posted (snd (fanout_env become_chief_env l w)) = [].
Proof. loop_calls (fun _ : LeadershipCallback => @nil ChannelMessage) @flat_map_none. Qed.

Lemma tasks_run_become_chief_env (l : list LeadershipCallback) (w : W) :
  tasks_run (snd (fanout_env become_chief_env l w)) = [].
Proof. loop_calls (fun _ : LeadershipCallback => @nil nat) @flat_map_none. Qed.

Lemma cleanups_returned_become_chief_env (l : list LeadershipCallback) (w : W) :
  cleanups_returned (snd (fanout_env become_chief_env l w)) = [].
Proof. loop_calls (fun _ : LeadershipCallback => @nil nat) @flat_map_none. Qed.

Lemma cleanups_run_become_chief_env (l : list LeadershipCallback) (w : W) :
  cleanups_run (snd (fanout_env become_chief_env l w)) = [].
Proof. loop_calls (fun _ : LeadershipCallback => @nil nat) @flat_map_none. Qed.

Lemma message_calls_become_chief_env (l : list LeadershipCallback) (w : W) :
  message_calls (snd (fanout_env become_chief_env l w)) = [].
Proof. loop_calls (fun _ : LeadershipCallback => @nil (nat * Payload)%type) @flat_map_none. Qed.

Lemma state_change_calls_become_chief_env (l : list LeadershipCallback) (w : W) :
  state_change_calls (snd (fanout_env become_chief_env l w)) = [].
Proof. loop_calls (fun _ : LeadershipCallback => @nil (nat * TabState * TabState)%type) @flat_map_none. Qed.

Lemma become_chief_calls_become_chief_env (l : list LeadershipCallback) (w : W) :
  become_chief_calls (snd (fanout_env become_chief_env l w)) = map leadership_callback_name l.
Proof. loop_calls (fun c : LeadershipCallback => [leadership_callback_name c]) @flat_map_single. Qed.

Lemma become_follower_calls_become_chief_env (l : list LeadershipCallback) (w : W) :
  become_follower_calls (snd (fanout_env become_chief_env l w)) = [].
Proof. loop_calls (fun _ : LeadershipCallback => @nil nat) @flat_map_none. Qed.

Lemma posted_become_follower_env (l : list LeadershipCallback) (w : W) :
  posted (snd (fanout_env become_follower_env l w)) = [].
Proof. loop_calls (fun _ : LeadershipCallback => @nil ChannelMessage) @flat_map_none. Qed.

Lemma tasks_run_become_follower_env (l : list LeadershipCallback) (w : W) :
  tasks_run (snd (fanout_env become_follower_env l w)) = [].
Proof. loop_calls (fun _ : LeadershipCallback => @nil nat) @flat_map_none. Qed.

Lemma cleanups_returned_become_follower_env (l : list LeadershipCallback) (w : W) :
  cleanups_returned (snd (fanout_env become_follower_env l w)) = [].
Proof. loop_calls (fun _ : LeadershipCallback => @nil nat) @flat_map_none. Qed.

Lemma cleanups_run_become_follower_env (l : list LeadershipCallback) (w : W) :
  cleanups_run (snd (fanout_env become_follower_env l w)) = [].
Proof. loop_calls (fun _ : LeadershipCallback => @nil nat) @flat_map_none. Qed.

Lemma message_calls_become_follower_env (l : list LeadershipCallback) (w : W) :
  message_calls (snd (fanout_env become_follower_env l w)) = [].
Proof. loop_calls (fun _ : LeadershipCallback => @nil (nat * Payload)%type) @flat_map_none. Qed.

Lemma state_change_calls_become_follower_env (l : list LeadershipCallback) (w : W) :
  state_change_calls (snd (fanout_env become_follower_env l w)) = [].
Proof. loop_calls (fun _ : LeadershipCallback => @nil (nat * TabState * TabState)%type) @flat_map_none. Qed.

Lemma become_chief_calls_become_follower_env (l : list LeadershipCallback) (w : W) :
  become_chief_calls (snd (fanout_env become_follower_env l w)) = [].
Proof. loop_calls (fun _ : LeadershipCallback => @nil nat) @flat_map_none. Qed.

Lemma become_follower_calls_become_follower_env (l : list LeadershipCallback) (w : W) :
  become_follower_calls (snd (fanout_env become_follower_env l w)) = map leadership_callback_name l.
Proof. loop_calls (fun c : LeadershipCallback => [leadership_callback_name c]) @flat_map_single. Qed.

(** The setups: every registered task is called once, in order, and the
    cleanups handed back are the ones kept. *)
Lemma tasks_run_tasks_env (l : list ExclusiveTask) (w : W) :
  tasks_run (snd (fst (tasks_env l w))) = map task_name l.
Proof.
  revert w. induction l as [|t l IH]; intros w; simpl; [reflexivity|].
  unfold task_env. destruct (task_call t w) as [w1 r].
  specialize (IH w1). destruct (tasks_env l w1) as [[w2 e2] c2].
  unfold tasks_run in *. simpl in *. rewrite flat_map_app, IH.
  destruct r; reflexivity.
Qed.

Lemma cleanups_returned_tasks_env (l : list ExclusiveTask) (w : W) :
  cleanups_returned (snd (fst (tasks_env l w))) =
  map cleanup_name (snd (tasks_env l w)).
Proof.
  revert w. induction l as [|t l IH]; intros w; simpl; [reflexivity|].
  unfold task_env. destruct (task_call t w) as [w1 r].
  specialize (IH w1). destruct (tasks_env l w1) as [[w2 e2] c2].
  unfold cleanups_returned in *. simpl in *. rewrite flat_map_app, IH.
  destruct r as [[c|]|]; reflexivity.
Qed.

Ltac tasks_quiet p :=
  let w := fresh "w" in
  let IH := fresh "IH" in
  intros l; induction l as [|t l IH]; intros w; simpl; [reflexivity|];
  unfold task_env; destruct (task_call t w) as [w1 r];
  specialize (IH w1); destruct (tasks_env l w1) as [[w2 e2] c2];
  unfold p in *; simpl in *; rewrite flat_map_app, IH;
  destruct r; reflexivity.

Lemma posted_tasks_env :
  forall (l : list ExclusiveTask) (w : W), posted (snd (fst (tasks_env l w))) = [].
Proof. tasks_quiet posted. Qed.

Lemma cleanups_run_tasks_env :
  forall (l : list ExclusiveTask) (w : W), cleanups_run (snd (fst (tasks_env l w))) = [].
Proof. tasks_quiet cleanups_run. Qed.

Lemma message_calls_tasks_env :
  forall (l : list ExclusiveTask) (w : W), message_calls (snd (fst (tasks_env l w))) = [].
Proof. tasks_quiet message_calls. Qed.

Lemma state_change_calls_tasks_env :
  forall (l : list ExclusiveTask) (w : W), state_change_calls (snd (fst (tasks_env l w))) = [].
Proof. tasks_quiet state_change_calls. Qed.

Lemma become_chief_calls_tasks_env :
  forall (l : list ExclusiveTask) (w : W), become_chief_calls (snd (fst (tasks_env l w))) = [].
Proof. tasks_quiet become_chief_calls. Qed.

Lemma become_follower_calls_tasks_env :
  forall (l : list ExclusiveTask) (w : W), become_follower_calls (snd (fst (tasks_env l w))) = [].
Proof. tasks_quiet become_follower_calls. Qed.

Lemma posted_app (a b : list Effect) : posted (a ++ b) = posted a ++ posted b.
Proof. apply flat_map_app. Qed.

Lemma raised_app (a b : list Effect) : raised (a ++ b) = raised a ++ raised b.
Proof. apply flat_map_app. Qed.

Lemma tasks_run_app (a b : list Effect) :
  tasks_run (a ++ b) = tasks_run a ++ tasks_run b.
Proof. apply flat_map_app. Qed.

Lemma cleanups_returned_app (a b : list Effect) :
  cleanups_returned (a ++ b) = cleanups_returned a ++ cleanups_returned b.
Proof. apply flat_map_app. Qed.

Lemma cleanups_run_app (a b : list Effect) :
  cleanups_run (a ++ b) = cleanups_run a ++ cleanups_run b.
Proof. apply flat_map_app. Qed.

Lemma message_calls_app (a b : list Effect) :
  message_calls (a ++ b) = message_calls a ++ message_calls b.
Proof. apply flat_map_app. Qed.

Lemma state_change_calls_app (a b : list Effect) :
  state_change_calls (a ++ b) = state_change_calls a ++ state_change_calls b.
Proof. apply flat_map_app. Qed.

Lemma become_chief_calls_app (a b : list Effect) :
  become_chief_calls (a ++ b) = become_chief_calls a ++ become_chief_calls b.
Proof. apply flat_map_app. Qed.

Lemma become_follower_calls_app (a b : list Effect) :
  become_follower_calls (a ++ b) =
  become_follower_calls a ++ become_follower_calls b.
Proof. apply flat_map_app. Qed.

(** [setState]: the state-change callbacks when the state changes, then the
    leadership callbacks of the transition. *)
Ltac setState_calls :=
  unfold setState_env;
  match goal with
  | |- context [TabState_eqb ?o ?n] => destruct n, o
  end; simpl; try reflexivity;
  match goal with
  | |- context [fanout_env (state_change_env ?n ?o) ?l ?w] =>
      let H := fresh "H" in
      let w1 := fresh "w1" in
      let e1 := fresh "e1" in
      pose proof (posted_state_change_env n o l w) as H;
      pose proof (tasks_run_state_change_env n o l w);
      pose proof (cleanups_returned_state_change_env n o l w);
      pose proof (cleanups_run_state_change_env n o l w);
      pose proof (message_calls_state_change_env n o l w);
      pose proof (state_change_calls_state_change_env n o l w);
      pose proof (become_chief_calls_state_change_env n o l w);
      pose proof (become_follower_calls_state_change_env n o l w);
      destruct (fanout_env (state_change_env n o) l w) as [w1 e1]
  end;
  repeat match goal with
  | |- context [fanout_env become_chief_env ?l ?w] =>
      pose proof (posted_become_chief_env l w);
      pose proof (tasks_run_become_chief_env l w);
      pose proof (cleanups_returned_become_chief_env l w);
      pose proof (cleanups_run_become_chief_env l w);
      pose proof (message_calls_become_chief_env l w);
      pose proof (state_change_calls_become_chief_env l w);
      pose proof (become_chief_calls_become_chief_env l w);
      pose proof (become_follower_calls_become_chief_env l w);
      destruct (fanout_env become_chief_env l w)
  | |- context [fanout_env become_follower_env ?l ?w] =>
      pose proof (posted_become_follower_env l w);
      pose proof (tasks_run_become_follower_env l w);
      pose proof (cleanups_returned_become_follower_env l w);
      pose proof (cleanups_run_become_follower_env l w);
      pose proof (message_calls_become_follower_env l w);
      pose proof (state_change_calls_become_follower_env l w);
      pose proof (become_chief_calls_become_follower_env l w);
      pose proof (become_follower_calls_become_follower_env l w);
      destruct (fanout_env become_follower_env l w)
  end;
  simpl in *;
  rewrite ?posted_app, ?tasks_run_app, ?cleanups_returned_app, ?cleanups_run_app,
    ?message_calls_app, ?state_change_calls_app, ?become_chief_calls_app,
    ?become_follower_calls_app;
  repeat match goal with
  | H : ?p ?l = _ |- context [?p ?l] => rewrite H
  end;
  rewrite ?app_nil_r; reflexivity.

Lemma posted_setState_env (new old : TabState) (onChange : list StateChangeCallback)
    (onChief onFollower : list LeadershipCallback) (w : W) :
  posted (snd (setState_env new old onChange onChief onFollower w)) = [].
Proof. setState_calls. Qed.

Lemma tasks_run_setState_env (new old : TabState) (onChange : list StateChangeCallback)
    (onChief onFollower : list LeadershipCallback) (w : W) :
  tasks_run (snd (setState_env new old onChange onChief onFollower w)) = [].
Proof. setState_calls. Qed.

Lemma cleanups_returned_setState_env (new old : TabState) (onChange : list StateChangeCallback)
    (onChief onFollower : list LeadershipCallback) (w : W) :
  cleanups_returned (snd (setState_env new old onChange onChief onFollower w)) = [].
Proof. setState_calls. Qed.

Lemma cleanups_run_setState_env (new old : TabState) (onChange : list StateChangeCallback)
    (onChief onFollower : list LeadershipCallback) (w : W) :
  cleanups_run (snd (setState_env new old onChange onChief onFollower w)) = [].
Proof. setState_calls. Qed.

Lemma message_calls_setState_env (new old : TabState) (onChange : list StateChangeCallback)
    (onChief onFollower : list LeadershipCallback) (w : W) :
  message_calls (snd (setState_env new old onChange onChief onFollower w)) = [].
Proof. setState_calls. Qed.

Lemma state_change_calls_setState_env (new old : TabState) (onChange : list StateChangeCallback)
    (onChief onFollower : list LeadershipCallback) (w : W) :
  state_change_calls (snd (setState_env new old onChange onChief onFollower w)) =
  if TabState_eqb old new then []
  else map (fun c => (state_callback_name c, new, old)) onChange.
Proof. setState_calls. Qed.

Lemma become_chief_calls_setState_env (new old : TabState) (onChange : list StateChangeCallback)
    (onChief onFollower : list LeadershipCallback) (w : W) :
  become_chief_calls (snd (setState_env new old onChange onChief onFollower w)) =
  if TabState_eqb new CHIEF && negb (TabState_eqb old CHIEF)
  then map leadership_callback_name onChief
  else [].
Proof. setState_calls. Qed.

Lemma become_follower_calls_setState_env (new old : TabState) (onChange : list StateChangeCallback)
    (onChief onFollower : list LeadershipCallback) (w : W) :
  become_follower_calls (snd (setState_env new old onChange onChief onFollower w)) =
  if TabState_eqb new FOLLOWER && TabState_eqb old CHIEF
  then map leadership_callback_name onFollower
  else [].
Proof. setState_calls. Qed.

(** One setup. *)
Lemma tasks_run_task_env (t : ExclusiveTask) (w : W) :
  tasks_run (snd (fst (task_env t w))) = [task_name t].
Proof. unfold task_env. destruct (task_call t w) as [w1 [r|]]; reflexivity. Qed.

Lemma cleanups_returned_task_env (t : ExclusiveTask) (w : W) :
  cleanups_returned (snd (fst (task_env t w))) =
  map cleanup_name (snd (task_env t w)).
Proof.
  unfold task_env. destruct (task_call t w) as [w1 [[c|]|]]; reflexivity.
Qed.

Lemma posted_task_env (t : ExclusiveTask) (w : W) :
  posted (snd (fst (task_env t w))) = [].
Proof. unfold task_env. destruct (task_call t w) as [w1 [r|]]; reflexivity. Qed.

Lemma cleanups_run_task_env (t : ExclusiveTask) (w : W) :
  cleanups_run (snd (fst (task_env t w))) = [].
Proof. unfold task_env. destruct (task_call t w) as [w1 [r|]]; reflexivity. Qed.

Lemma message_calls_task_env (t : ExclusiveTask) (w : W) :
  message_calls (snd (fst (task_env t w))) = [].
Proof. unfold task_env. destruct (task_call t w) as [w1 [r|]]; reflexivity. Qed.

Lemma state_change_calls_task_env (t : ExclusiveTask) (w : W) :
  state_change_calls (snd (fst (task_env t w))) = [].
Proof. unfold task_env. destruct (task_call t w) as [w1 [r|]]; reflexivity. Qed.

Lemma become_chief_calls_task_env (t : ExclusiveTask) (w : W) :
  become_chief_calls (snd (fst (task_env t w))) = [].
Proof. unfold task_env. destruct (task_call t w) as [w1 [r|]]; reflexivity. Qed.

Lemma become_follower_calls_task_env (t : ExclusiveTask) (w : W) :
  become_follower_calls (snd (fst (task_env t w))) = [].
Proof. unfold task_env. destruct (task_call t w) as [w1 [r|]]; reflexivity. Qed.

Lemma TabState_eqb_refl (a : TabState) : TabState_eqb a a = true.
Proof. now destruct a. Qed.

Lemma TabState_eqb_eq (a b : TabState) : TabState_eqb a b = true <-> a = b.
Proof. destruct a, b; simpl; split; congruence. Qed.

Lemma emitted_same (s s' : TabChief) : trace s' = trace s -> emitted s s' = [].
Proof. intros H. apply emitted_app. now rewrite H, app_nil_r. Qed.

(** ** Proof automation

    Every method is brought to a straight line of field updates; what is left
    to decide are the guards of the source. *)

Arguments setState_env : simpl never.
Arguments fanout_env : simpl never.
Arguments tasks_env : simpl never.
Arguments task_env : simpl never.

Create Rewrite HintDb norm.
Create Rewrite HintDb read.

#[local] Hint Rewrite setState_eq stopHeartbeat_eq clearElectionTimer_eq
  clearTimers_eq broadcast_eq runCleanups_eq runAllTasks_eq runTask_eq
  notifyMessageCallbacks_eq : norm.

#[local] Hint Rewrite posted_app tasks_run_app cleanups_returned_app
  cleanups_run_app message_calls_app state_change_calls_app
  become_chief_calls_app become_follower_calls_app
  posted_setState_env tasks_run_setState_env cleanups_returned_setState_env
  cleanups_run_setState_env message_calls_setState_env
  state_change_calls_setState_env become_chief_calls_setState_env
  become_follower_calls_setState_env
  posted_cleanup_env tasks_run_cleanup_env cleanups_returned_cleanup_env
  cleanups_run_cleanup_env message_calls_cleanup_env
  state_change_calls_cleanup_env become_chief_calls_cleanup_env
  become_follower_calls_cleanup_env
  posted_message_env tasks_run_message_env cleanups_returned_message_env
  cleanups_run_message_env message_calls_message_env
  state_change_calls_message_env become_chief_calls_message_env
  become_follower_calls_message_env
  posted_tasks_env tasks_run_tasks_env cleanups_returned_tasks_env
  cleanups_run_tasks_env message_calls_tasks_env state_change_calls_tasks_env
  become_chief_calls_tasks_env become_follower_calls_tasks_env
  posted_task_env tasks_run_task_env cleanups_returned_task_env
  cleanups_run_task_env message_calls_task_env state_change_calls_task_env
  become_chief_calls_task_env become_follower_calls_task_env
  raised_app raised_message_env
  TabState_eqb_refl app_nil_r : read.

Ltac unfold_methods H :=
  unfold step, start, stop, runExclusive, postMessage, onMessage, offMessage,
    onStateChange, offStateChange, onBecomeChief, offBecomeChief,
    onBecomeFollower, offBecomeFollower, handleMessage, handleHeartbeat,
    handleElectionRequest, handleAliveResponse, handleVictory, handleShutdown,
    handleBeforeUnload, fireElectionTimer, declareVictory, chiefSeemsDead,
    becomeFollower, startElection, resetElectionTimeout, startHeartbeat,
    sendHeartbeat in H.

Ltac normalize H := unfold_methods H; autorewrite with norm in H; simpl in H.

(** Decides the guards of the method in [H], the outermost first. *)
Ltac head_case H :=
  match type of H with
  | _ = (if ?b then _ else _) => destruct b eqn:?
  | _ = match ?b with _ => _ end => destruct b eqn:?
  end.

Ltac inner_case H :=
  match type of H with
  | context [if ?b then _ else _] =>
      lazymatch b with
      | context [if _ then _ else _] => fail
      | context [match _ with _ => _ end] => fail
      | _ => destruct b eqn:?
      end
  | context [match ?b with _ => _ end] =>
      lazymatch b with
      | context [if _ then _ else _] => fail
      | context [match _ with _ => _ end] => fail
      | _ => destruct b eqn:?
      end
  end.

Ltac cases H :=
  normalize H;
  repeat (first [head_case H | inner_case H];
          autorewrite with norm in H; simpl in H).

(** Replaces [emitted s s'] by what [s'] appended, and reads it. *)
Ltac read_trace :=
  first [ rewrite emitted_same by reflexivity
        | erewrite emitted_app by (simpl; rewrite <- ?app_assoc; reflexivity) ];
  autorewrite with read; simpl.

(** Settles what is left by the value of the state. *)
Ltac by_state s :=
  try reflexivity;
  let Hst := fresh "Hst" in
  destruct (state s) eqn:Hst; simpl in *; try discriminate; try reflexivity.

(** ** The tie-break rule *)

Lemma ltb_exactly_one (a b : string) :
  a <> b ->
  (String.ltb a b = true /\ String.ltb b a = false) \/
  (String.ltb a b = false /\ String.ltb b a = true).
Proof.
  intros Hne. unfold String.ltb. rewrite (String.compare_antisym b a).
  destruct (String.compare a b) eqn:Hc; simpl; auto.
  apply String.compare_eq_iff in Hc. contradiction.
Qed.

(** C4. [shouldYieldTo] answers true exactly when the other timestamp is
    strictly smaller than the creation timestamp of the instance, or the two
    are equal and the other id is lexicographically smaller than the id of
    the instance; and of two peers with distinct ids exactly one yields to
    the other. *)
Theorem shouldYieldTo_total_order :
  (forall (s : TabChief) (otherId : string) (otherTimestamp : Z),
      shouldYieldTo s otherId otherTimestamp = true <->
      otherTimestamp < creationTimestamp s \/
      (otherTimestamp = creationTimestamp s /\
       String.ltb otherId (tabId s) = true))
  /\
  (forall p q : TabChief,
      tabId p <> tabId q ->
      (shouldYieldTo p (tabId q) (creationTimestamp q) = true /\
       shouldYieldTo q (tabId p) (creationTimestamp p) = false) \/
      (shouldYieldTo p (tabId q) (creationTimestamp q) = false /\
       shouldYieldTo q (tabId p) (creationTimestamp p) = true)).
Proof.
  split.
  - intros s otherId otherTimestamp. unfold shouldYieldTo.
    destruct (Z.eqb_spec otherTimestamp (creationTimestamp s)) as [He|Hne]; simpl.
    + split; [intros H; right; auto | intros [H|[_ H]]; [lia | exact H]].
    + rewrite Z.ltb_lt. split; [auto | intros [H|[H _]]; [exact H | contradiction]].
  - intros p q Hid. unfold shouldYieldTo.
    destruct (Z.eqb_spec (creationTimestamp q) (creationTimestamp p)) as [He|Hne];
      simpl.
    + rewrite He, Z.eqb_refl. simpl.
      destruct (ltb_exactly_one (tabId q) (tabId p)) as [H|H]; [congruence| |]; tauto.
    + destruct (Z.eqb_spec (creationTimestamp p) (creationTimestamp q)) as [He'|_];
        [congruence|]. simpl.
      destruct (Z.ltb_spec (creationTimestamp q) (creationTimestamp p));
        destruct (Z.ltb_spec (creationTimestamp p) (creationTimestamp q));
        auto; lia.
Qed.

(** ** The observer registry *)

Lemma setState_calls_spec (new : TabState) (s : TabChief) :
  state (setState new s) = new
  /\ state_change_calls (emitted s (setState new s)) =
       (if TabState_eqb (state s) new then []
        else map (fun c => (state_callback_name c, new, state s))
               (stateChangeCallbacks s))
  /\ become_chief_calls (emitted s (setState new s)) =
       (if TabState_eqb new CHIEF && negb (TabState_eqb (state s) CHIEF)
        then map leadership_callback_name (becomeChiefCallbacks s)
        else [])
  /\ become_follower_calls (emitted s (setState new s)) =
       (if TabState_eqb new FOLLOWER && TabState_eqb (state s) CHIEF
        then map leadership_callback_name (becomeFollowerCallbacks s)
        else []).
Proof.
  rewrite setState_eq. simpl. split; [reflexivity|].
  read_trace. auto.
Qed.

(** C8. Whatever happens to an instance (a call, a message, a timer, an
    unload), going from [s] to [s']: the state-change callbacks are called,
    each once and with (new, old), exactly when the state of [s'] differs from
    that of [s]; the become-chief callbacks exactly when [s'] is CHIEF and [s]
    was not; the become-follower callbacks exactly when [s'] is FOLLOWER and
    [s] was CHIEF, so never on the way from ELECTING to FOLLOWER.  The same
    holds of [setState] for every pair of states. *)
Theorem observers_fire_on_transitions :
  (forall (now : Z) (input : Input) (s : TabChief),
      let s' := step now input s in
      state_change_calls (emitted s s') =
        (if TabState_eqb (state s) (state s') then []
         else map (fun c => (state_callback_name c, state s', state s))
                (stateChangeCallbacks s))
      /\ become_chief_calls (emitted s s') =
        (if TabState_eqb (state s') CHIEF && negb (TabState_eqb (state s) CHIEF)
         then map leadership_callback_name (becomeChiefCallbacks s)
         else [])
      /\ become_follower_calls (emitted s s') =
        (if TabState_eqb (state s') FOLLOWER && TabState_eqb (state s) CHIEF
         then map leadership_callback_name (becomeFollowerCallbacks s)
         else []))
  /\
  (forall (new : TabState) (s : TabChief),
      let s' := setState new s in
      state s' = new
      /\ state_change_calls (emitted s s') =
        (if TabState_eqb (state s) new then []
         else map (fun c => (state_callback_name c, new, state s))
                (stateChangeCallbacks s))
      /\ become_chief_calls (emitted s s') =
        (if TabState_eqb new CHIEF && negb (TabState_eqb (state s) CHIEF)
         then map leadership_callback_name (becomeChiefCallbacks s)
         else [])
      /\ become_follower_calls (emitted s s') =
        (if TabState_eqb new FOLLOWER && TabState_eqb (state s) CHIEF
         then map leadership_callback_name (becomeFollowerCallbacks s)
         else [])).
Proof.
  split; [|intros new s; apply setState_calls_spec].
  intros now input s s'. subst s'.
  remember (step now input s) as s' eqn:E.
  destruct input; cases E; subst s'; simpl;
    read_trace; repeat split; by_state s.
Qed.

(** ** start() and stop() *)



(** ** Fault isolation *)

Lemma fanout_env_cons {C : Type} (g : C -> W -> W * list Effect) (c : C)
    (l : list C) (w : W) :
  fanout_env g (c :: l) w =
  (fst (fanout_env g l (fst (g c w))),
   snd (g c w) ++ snd (fanout_env g l (fst (g c w)))).
Proof.
  unfold fanout_env at 1. fold (@fanout_env C).
  destruct (g c w) as [w1 e1]. simpl. now destruct (fanout_env g l w1).
Qed.

Lemma tasks_env_cons (t : ExclusiveTask) (l : list ExclusiveTask) (w : W) :
  tasks_env (t :: l) w =
  (fst (fst (tasks_env l (fst (fst (task_env t w))))),
   snd (fst (task_env t w)) ++ snd (fst (tasks_env l (fst (fst (task_env t w))))),
   snd (task_env t w) ++ snd (tasks_env l (fst (fst (task_env t w))))).
Proof.
  unfold tasks_env at 1. fold tasks_env.
  destruct (task_env t w) as [[w1 e1] c1]. simpl.
  now destruct (tasks_env l w1) as [[w2 e2] c2].
Qed.

Lemma fanout_env_calm {C : Type} (g : C -> W -> W * list Effect) (f : C -> C) :
  (forall c w, fst (g (f c) w) = fst (g c w)) ->
  forall l w, fst (fanout_env g (map f l) w) = fst (fanout_env g l w).
Proof.
  intros Hg. induction l as [|c l IH]; intros w; [reflexivity|].
  cbn [map]. rewrite !fanout_env_cons. cbn [fst]. now rewrite Hg, IH.
Qed.

Lemma guarded_env_calm (mk mk' : Completion unit -> Effect) (text : string)
    (call : W -> W * Completion unit) (w : W) :
  fst (guarded_env mk' text (calm call) w) = fst (guarded_env mk text call w).
Proof. unfold guarded_env, calm. now destruct (call w). Qed.

Lemma task_env_calm (t : ExclusiveTask) (w : W) :
  fst (fst (task_env (calm_task t) w)) = fst (fst (task_env t w))
  /\ snd (task_env (calm_task t) w) = snd (task_env t w).
Proof.
  unfold task_env, calm_task. cbn [task_call task_name].
  destruct (task_call t w) as [w1 [[c|]|]]; split; reflexivity.
Qed.

Lemma tasks_env_calm (l : list ExclusiveTask) (w : W) :
  fst (fst (tasks_env (map calm_task l) w)) = fst (fst (tasks_env l w))
  /\ snd (tasks_env (map calm_task l) w) = snd (tasks_env l w).
Proof.
  revert w. induction l as [|t l IH]; intros w; [split; reflexivity|].
  cbn [map]. rewrite !tasks_env_cons. cbn [fst snd].
  destruct (task_env_calm t w) as [Hw Hc]. rewrite Hw, Hc. destruct (IH (fst (fst (task_env t w)))) as [IHw IHc].
  now rewrite IHw, IHc.
Qed.

(** ** The page after a loop

    What the loops do to the page, read off the closures themselves. *)

Lemma called_in_order_fanout {C : Type} (g : C -> W -> W * list Effect)
    (call : C -> W -> W * Completion unit) :
  (forall c w, fst (g c w) = fst (call c w)) ->
  forall l w, fst (fanout_env g l w) = called_in_order call l w.
Proof.
  intros Hg. unfold called_in_order.
  induction l as [|c l IH]; intros w; [reflexivity|].
  rewrite fanout_env_cons. cbn [fst fold_left]. now rewrite IH, Hg.
Qed.

Lemma fst_guarded_env (mk : Completion unit -> Effect) (text : string)
    (call : W -> W * Completion unit) (w : W) :
  fst (guarded_env mk text call w) = fst (call w).
Proof. unfold guarded_env. now destruct (call w). Qed.

Lemma called_in_order_messages (data : Payload) (l : list MessageCallback)
    (w : W) :
  fst (fanout_env (message_env data) l w) =
  called_in_order (fun c => message_callback_call c data) l w.
Proof. apply called_in_order_fanout. intros. apply fst_guarded_env. Qed.

Lemma called_in_order_cleanups (l : list CleanupFunction) (w : W) :
  fst (fanout_env cleanup_env l w) = called_in_order cleanup_call l w.
Proof. apply called_in_order_fanout. intros. apply fst_guarded_env. Qed.

Lemma told_eq (new old : TabState) (s : TabChief) (w : W) :
  fst (setState_env new old (stateChangeCallbacks s) (becomeChiefCallbacks s)
         (becomeFollowerCallbacks s) w) = told new old s w.
Proof.
  unfold setState_env, told.
  destruct (TabState_eqb old new); [reflexivity|].
  rewrite <- (called_in_order_fanout (state_change_env new old)
                (fun c => state_callback_call c new old))
    by (intros; apply fst_guarded_env).
  destruct (fanout_env (state_change_env new old) (stateChangeCallbacks s) w)
    as [w1 e1]. cbn [fst].
  destruct (TabState_eqb new CHIEF && negb (TabState_eqb old CHIEF)).
  - rewrite <- (called_in_order_fanout become_chief_env leadership_callback_call)
      by (intros; apply fst_guarded_env).
    now destruct (fanout_env become_chief_env (becomeChiefCallbacks s) w1).
  - destruct (TabState_eqb new FOLLOWER && TabState_eqb old CHIEF);
      [|reflexivity].
    rewrite <- (called_in_order_fanout become_follower_env
                  leadership_callback_call)
      by (intros; apply fst_guarded_env).
    now destruct (fanout_env become_follower_env (becomeFollowerCallbacks s) w1).
Qed.

Lemma set_up_task (t : ExclusiveTask) (w : W) (active : list CleanupFunction) :
  (fst (fst (task_env t w)), active ++ snd (task_env t w)) = set_up [t] w active.
Proof.
  unfold set_up, task_env. cbn [fold_left fst snd].
  destruct (task_call t w) as [w1 [[c|]|]]; reflexivity.
Qed.

Lemma set_up_tasks (l : list ExclusiveTask) (w : W)
    (active : list CleanupFunction) :
  (fst (fst (tasks_env l w)), active ++ snd (tasks_env l w)) = set_up l w active.
Proof.
  revert w active. induction l as [|t l IH]; intros w active.
  - unfold set_up. cbn. now rewrite app_nil_r.
  - rewrite tasks_env_cons. cbn [fst snd].
    rewrite app_assoc, IH.
    pose proof (set_up_task t w active) as Ht.
    unfold set_up in *. cbn [fold_left] in *. now rewrite <- Ht.
Qed.

(** C9. An exception thrown by a setup, a cleanup or an observer is caught
    at that entry.  The single setup of [runExclusive] and each of the six
    loops call every entry once, in order, whatever the entries throw; they
    leave the protocol state as it was; and they end as they would have ended
    had no entry thrown (a setup that throws counting as one that returns
    nothing). *)
Theorem fan_out_is_fault_isolated (s : TabChief) :
  (forall task : ExclusiveTask,
      tasks_run (emitted s (runTask task s)) = [task_name task]
      /\ machine (runTask task s) = machine s
      /\ same_outcome (runTask task s) (runTask (calm_task task) s))
  /\
  (tasks_run (emitted s (runAllTasks s)) = map task_name (exclusiveTasks s)
   /\ machine (runAllTasks s) = machine s
   /\ same_outcome (runAllTasks s)
        (runAllTasks (set_exclusiveTasks (map calm_task (exclusiveTasks s)) s)))
  /\
  (cleanups_run (emitted s (runCleanups s)) = map cleanup_name (activeCleanups s)
   /\ machine (runCleanups s) = machine s
   /\ same_outcome (runCleanups s)
        (runCleanups (set_activeCleanups (map calm_cleanup (activeCleanups s)) s)))
  /\
  (forall data : Payload,
      message_calls (emitted s (notifyMessageCallbacks data s)) =
        map (fun c => (message_callback_name c, data)) (messageCallbacks s)
      /\ machine (notifyMessageCallbacks data s) = machine s
      /\ same_outcome (notifyMessageCallbacks data s)
           (notifyMessageCallbacks data
              (set_messageCallbacks
                 (map calm_message_callback (messageCallbacks s)) s)))
  /\
  (forall new old : TabState,
      state_change_calls (emitted s (notifyStateChangeCallbacks new old s)) =
        map (fun c => (state_callback_name c, new, old)) (stateChangeCallbacks s)
      /\ machine (notifyStateChangeCallbacks new old s) = machine s
      /\ same_outcome (notifyStateChangeCallbacks new old s)
           (notifyStateChangeCallbacks new old
              (set_stateChangeCallbacks
                 (map calm_state_callback (stateChangeCallbacks s)) s)))
  /\
  (become_chief_calls (emitted s (notifyBecomeChiefCallbacks s)) =
     map leadership_callback_name (becomeChiefCallbacks s)
   /\ machine (notifyBecomeChiefCallbacks s) = machine s
   /\ same_outcome (notifyBecomeChiefCallbacks s)
        (notifyBecomeChiefCallbacks
           (set_becomeChiefCallbacks
              (map calm_leadership_callback (becomeChiefCallbacks s)) s)))
  /\
  (become_follower_calls (emitted s (notifyBecomeFollowerCallbacks s)) =
     map leadership_callback_name (becomeFollowerCallbacks s)
   /\ machine (notifyBecomeFollowerCallbacks s) = machine s
   /\ same_outcome (notifyBecomeFollowerCallbacks s)
        (notifyBecomeFollowerCallbacks
           (set_becomeFollowerCallbacks
              (map calm_leadership_callback (becomeFollowerCallbacks s)) s))).
Proof.
  unfold same_outcome.
  repeat match goal with
         | |- _ /\ _ => split
         | |- forall _, _ => intro
         end;
    rewrite ?runTask_eq, ?runAllTasks_eq, ?runCleanups_eq,
      ?notifyMessageCallbacks_eq,
      ?notifyStateChangeCallbacks_eq, ?notifyBecomeChiefCallbacks_eq,
      ?notifyBecomeFollowerCallbacks_eq; simpl; try reflexivity.
  all: try (read_trace; reflexivity).
  all: try (symmetry; apply fanout_env_calm; intros; apply guarded_env_calm).
  all: try (erewrite emitted_app by (simpl; reflexivity)).
  - now destruct (task_env_calm task (world s)) as [-> _].
  - now destruct (task_env_calm task (world s)) as [_ ->].
  - now destruct (tasks_env_calm (exclusiveTasks s) (world s)) as [-> _].
  - now destruct (tasks_env_calm (exclusiveTasks s) (world s)) as [_ ->].
  - apply state_change_calls_state_change_env.
  - apply become_chief_calls_become_chief_env.
  - apply become_follower_calls_become_follower_env.
Qed.

(** ** Reachable instances *)

Lemma step_wellformed (now : Z) (input : Input) (s : TabChief) :
  wellformed s -> wellformed (step now input s).
Proof.
  intros (Hch & Hbound & Hidle & Hchief & Hnochief & Htrace).
  remember (step now input s) as s' eqn:E.
  destruct input; cases E; subst s'; unfold wellformed; simpl.
  all: autorewrite with read; simpl.
  all: destruct (state s) eqn:Hst; simpl in *; try discriminate.
  all: repeat match goal with
         | H : ?a = ?a -> _ |- _ => specialize (H eq_refl)
         | H : ?a <> ?b -> _ |- _ =>
             let N := fresh in
             assert (a <> b) as N by discriminate; specialize (H N); clear N
         | H : _ /\ _ |- _ => destruct H
         end.
  all: try congruence.
  all: try (repeat split; intros; try discriminate; try congruence; fail).
  all: repeat split; intros; try discriminate; try congruence;
    rewrite Htrace, map_app, app_assoc; reflexivity.
Qed.

Lemma reachable_wellformed (s : TabChief) : reachable s -> wellformed s.
Proof.
  induction 1 as [tab now name heartbeat election w | s now input _ IH].
  - unfold wellformed, new_TabChief. simpl.
    repeat split; intros; try discriminate; reflexivity.
  - now apply step_wellformed.
Qed.

(** ** postMessage *)

(** C10, as the code has it.  On an instance that can be reached,
    [postMessage] in IDLE or STOPPED returns the instance as it was, for
    every payload (nothing handed to the channel, no callback called).  In
    every other state, with a payload that can be cloned, it hands exactly
    one DATA message with the payload to the channel and then calls every
    subscribed message callback once with the payload, in subscription
    order, before it returns: the page is left as those calls leave it, and
    nothing else of the instance changes.  With a payload that cannot be
    cloned the channel throws: the exception leaves [postMessage], nothing is
    handed to the channel and no callback is called. *)
Theorem postMessage_only_when_started (now : Z) (data : Payload) (s : TabChief) :
  reachable s ->
  let s' := postMessage now data s in
  (state s = IDLE \/ state s = STOPPED -> s' = s)
  /\
  (state s <> IDLE -> state s <> STOPPED -> cloneable data = true ->
   posted (emitted s s') = [mkMessage DATA (tabId s) now (Some data)]
   /\ message_calls (emitted s s') =
        map (fun c => (message_callback_name c, data)) (messageCallbacks s)
   /\ raised (emitted s s') = []
   /\ world s' = called_in_order (fun c => message_callback_call c data)
                   (messageCallbacks s) (world s)
   /\ machine s' = machine s
   /\ registries s' = registries s
   /\ activeCleanups s' = activeCleanups s)
  /\
  (state s <> IDLE -> state s <> STOPPED -> cloneable data = false ->
   posted (emitted s s') = []
   /\ message_calls (emitted s s') = []
   /\ raised (emitted s s') = ["DataCloneError"%string]
   /\ same_outcome s' s
   /\ registries s' = registries s).
Proof.
  intros Hreach s'. subst s'. apply reachable_wellformed in Hreach.
  destruct Hreach as (Hch & _).
  unfold postMessage. rewrite Hch. split; [|split].
  - intros [H|H]; rewrite H; reflexivity.
  - intros H1 H2 Hclone. rewrite Hclone.
    destruct (state s); try congruence; simpl;
      rewrite notifyMessageCallbacks_eq; simpl;
      rewrite <- called_in_order_messages;
      repeat split; read_trace; reflexivity.
  - intros H1 H2 Hclone. rewrite Hclone.
    destruct (state s); try congruence; simpl;
      repeat split; read_trace; reflexivity.
Qed.

(** ** Receiving protocol messages *)

Lemma eqb_sender (a b : string) : a <> b -> String.eqb a b = false.
Proof. intros H. now apply String.eqb_neq. Qed.

(** C2, as the code has it.  A CHIEF that receives a HEARTBEAT or a VICTORY
    from another peer steps down to FOLLOWER exactly when [shouldYieldTo],
    applied to the sender's id and to the receiver's own clock reading at
    receipt, says so.  When it does not yield it stays CHIEF: after a VICTORY
    it posts a VICTORY of its own, after a HEARTBEAT it posts nothing and is
    left as it was. *)
Theorem chief_conflict_resolution (now : Z) (m : ChannelMessage) (s : TabChief) :
  state s = CHIEF ->
  channel s = true ->
  senderId m <> tabId s ->
  type m = HEARTBEAT \/ type m = VICTORY ->
  let s' := step now (Deliver m) s in
  (state s' = FOLLOWER <-> shouldYieldTo s (senderId m) now = true)
  /\
  (shouldYieldTo s (senderId m) now = false ->
   state s' = CHIEF
   /\ currentChiefId s' = currentChiefId s
   /\ posted (emitted s s') =
        match type m with
        | VICTORY => [mkMessage VICTORY (tabId s) now None]
        | _ => []
        end
   /\ (type m = HEARTBEAT -> s' = s)).
Proof.
  intros Hst Hch Hsender Htype s'. subst s'.
  apply eqb_sender in Hsender.
  remember (step now (Deliver m) s) as s' eqn:E.
  unfold step, handleMessage, handleHeartbeat, handleVictory in E.
  rewrite Hch, Hsender, Hst in E. simpl in E.
  destruct Htype as [Ht|Ht]; rewrite Ht in *;
    destruct (shouldYieldTo s (senderId m) now) eqn:Hy; cases E; subst s'; simpl.
  all: split; [split; congruence|]; intros; try discriminate.
  all: repeat split; try congruence; try read_trace; try rewrite ?Hch; auto.
Qed.

(** C3, as the code has it.  An ELECTING instance that receives ALIVE
    becomes FOLLOWER exactly when it must yield to the sender by the
    timestamp the message carries, and then arms its liveness timer of
    [electionTimeout]; an ALIVE from a peer it out-ranks leaves it as it was.
    A HEARTBEAT or a VICTORY from another peer is accepted by an ELECTING or
    FOLLOWER instance whatever the rank of the sender: the instance becomes
    (or stays) FOLLOWER, tracks the sender as chief and re-arms its liveness
    timer of [electionTimeout]. *)
Theorem non_chief_acceptance (now : Z) (m : ChannelMessage) (s : TabChief) :
  channel s = true ->
  senderId m <> tabId s ->
  let s' := step now (Deliver m) s in
  let liveness := Some (mkTimeout SuspectChief (electionTimeout s) true) in
  (state s = ELECTING -> type m = ALIVE ->
   (state s' = FOLLOWER <-> shouldYieldTo s (senderId m) (timestamp m) = true)
   /\ (shouldYieldTo s (senderId m) (timestamp m) = true ->
       electionTimer s' = liveness /\ currentChiefId s' = currentChiefId s)
   /\ (shouldYieldTo s (senderId m) (timestamp m) = false -> s' = s))
  /\
  (state s = ELECTING \/ state s = FOLLOWER ->
   type m = HEARTBEAT \/ type m = VICTORY ->
   state s' = FOLLOWER
   /\ currentChiefId s' = Some (senderId m)
   /\ electionTimer s' = liveness).
Proof.
  intros Hch Hsender s' liveness. subst s' liveness.
  apply eqb_sender in Hsender.
  remember (step now (Deliver m) s) as s' eqn:E.
  unfold step, handleMessage, handleHeartbeat, handleVictory,
    handleAliveResponse in E.
  rewrite Hch, Hsender in E. split.
  - intros Hst Ht. rewrite Ht, Hst in E. simpl in E.
    destruct (shouldYieldTo s (senderId m) (timestamp m)) eqn:Hy;
      cases E; subst s'; simpl; rewrite ?Hst;
      repeat split; intros; congruence.
  - intros [Hst|Hst] [Ht|Ht]; rewrite Ht, Hst in E; simpl in E;
      cases E; subst s'; simpl; auto.
Qed.

(** C6, as the code has it.  On an ELECTION message from another peer: a
    receiver that must yield to the sender does nothing at all.  A receiver
    of higher priority posts ALIVE with its own creation timestamp; then, if
    it is CHIEF or its debounce window is still armed, that is all (its
    protocol state is unchanged); otherwise it starts its own election:
    it becomes ELECTING, posts ELECTION with its creation timestamp, arms the
    debounce window and the election timer of [electionTimeout]. *)
Theorem election_request_response (now : Z) (m : ChannelMessage) (s : TabChief) :
  channel s = true ->
  senderId m <> tabId s ->
  type m = ELECTION ->
  let s' := step now (Deliver m) s in
  let alive := mkMessage ALIVE (tabId s) (creationTimestamp s) None in
  let election := mkMessage ELECTION (tabId s) (creationTimestamp s) None in
  (shouldYieldTo s (senderId m) (timestamp m) = true -> s' = s)
  /\
  (shouldYieldTo s (senderId m) (timestamp m) = false ->
   (state s = CHIEF \/ electionDebounceTimer s <> None ->
    posted (emitted s s') = [alive] /\ machine s' = machine s)
   /\
   (state s <> CHIEF -> electionDebounceTimer s = None ->
    posted (emitted s s') = [alive; election]
    /\ state s' = ELECTING
    /\ electionDebounceTimer s' = Some ELECTION_DEBOUNCE_TIME
    /\ electionTimer s' =
       Some (mkTimeout DeclareVictory (electionTimeout s) true))).
Proof.
  intros Hch Hsender Ht s' alive election. subst s' alive election.
  apply eqb_sender in Hsender.
  remember (step now (Deliver m) s) as s' eqn:E.
  unfold step, handleMessage, handleElectionRequest in E.
  rewrite Hch, Hsender, Ht in E.
  destruct (shouldYieldTo s (senderId m) (timestamp m)) eqn:Hy; simpl in E.
  - subst s'. split; [reflexivity | discriminate].
  - split; [discriminate|]. intros _.
    cases E; subst s'; simpl; rewrite ?Hch in *; simpl.
    all: split; [intros [Hc|Hd] | intros Hc Hd]; try congruence.
    all: try (rewrite Hc in *; discriminate).
    all: try (destruct (state s); try discriminate; congruence).
    all: read_trace; repeat split; rewrite ?Hch; try reflexivity.
    all: unfold machine; simpl; congruence.
Qed.

(** ** The effect registry *)

(** What a step does to the page and to the active cleanups where setups or
    cleanups run, read off the closures themselves. *)
Lemma step_page (now : Z) (input : Input) (s : TabChief) :
  wellformed s ->
  (state s <> CHIEF -> state (step now input s) = CHIEF ->
   (world (step now input s), activeCleanups (step now input s)) =
     set_up (exclusiveTasks s) (told CHIEF (state s) s (world s)) [])
  /\ (forall task : ExclusiveTask,
         input = CallRunExclusive task -> state s = CHIEF ->
         (world (step now input s), activeCleanups (step now input s)) =
           set_up [task] (world s) (activeCleanups s))
  /\ (state s = CHIEF -> state (step now input s) = FOLLOWER ->
      world (step now input s) =
        called_in_order cleanup_call (activeCleanups s)
          (told FOLLOWER CHIEF s (world s)))
  /\ (state s = CHIEF -> state (step now input s) = STOPPED ->
      world (step now input s) =
        told STOPPED CHIEF s
          (called_in_order cleanup_call (activeCleanups s) (world s)))
  /\ (input = BeforeUnload -> state s = CHIEF ->
      state (step now input s) = CHIEF
      /\ activeCleanups (step now input s) = []
      /\ world (step now input s) =
           called_in_order cleanup_call (activeCleanups s) (world s))
  /\ (state s = CHIEF -> state (step now input s) = CHIEF ->
      input <> BeforeUnload ->
      (forall task : ExclusiveTask, input <> CallRunExclusive task) ->
      activeCleanups (step now input s) = activeCleanups s).
Proof.
  intros (Hch & Hbound & Hidle & Hchief & Hnochief & Htrace).
  rewrite <- !set_up_tasks, <- !told_eq, <- !called_in_order_cleanups.
  remember (step now input s) as s' eqn:E.
  destruct input; cases E; subst s'; simpl.
  all: destruct (state s) eqn:Hst; simpl in *; try discriminate.
  all: repeat match goal with
         | H : ?a = ?a -> _ |- _ => specialize (H eq_refl)
         | H : ?a <> ?b -> _ |- _ =>
             let N := fresh in
             assert (a <> b) as N by discriminate; specialize (H N); clear N
         | H : _ /\ _ |- _ => destruct H
         end.
  all: try congruence.
  all: repeat match goal with
         | |- _ /\ _ => split
         | |- _ -> _ => intro
         | |- forall _, _ => intro
         end; try discriminate; try congruence; try reflexivity.
  all: try (rewrite Hnochief; reflexivity).
  all: try match goal with
         | H : CallRunExclusive _ = CallRunExclusive _ |- _ =>
             injection H as <-; rewrite <- set_up_task; reflexivity
         | H : forall t, CallRunExclusive ?x <> CallRunExclusive t |- _ =>
             elim (H x); reflexivity
         end.
Qed.

(** C5, as the code has it.  On an instance that can be reached, whatever
    happens next (going from [s] to [s']):
    - the setups that run are every registered task, once each and in order,
      when the instance becomes CHIEF, the one task of [runExclusive] when the
      instance already is CHIEF (inside the call), and none otherwise; the
      page and the active cleanups are then what those setups, called on the
      page the observers left, make them;
    - the cleanups that run are every active cleanup, once each and in order,
      when the instance stops being CHIEF (it lost leadership, or [stop()]
      was called) and on the unload hook, and none otherwise; the page is then
      what those calls (and the observers, before them on the way to
      FOLLOWER, after them in [stop()]) make it;
    - the unload hook leaves the instance CHIEF with no active cleanup, so
      that a later loss of leadership or [stop()] in the same term runs none
      of them again; any other step that stays in CHIEF, [runExclusive]
      apart, keeps the active cleanups as they are;
    - away from CHIEF no cleanup stays active;
    - registrations are kept: only [runExclusive] changes the list, by
      adding to it, so the next acquisition runs every setup again;
    - the cleanups handed back by the setups so far are the ones that have
      run followed by the ones still active; so whenever the instance is not
      CHIEF, every cleanup handed back so far has run, once. *)
Theorem effect_symmetry (now : Z) (input : Input) (s : TabChief) :
  reachable s ->
  let s' := step now input s in
  tasks_run (emitted s s') =
    (if TabState_eqb (state s') CHIEF && negb (TabState_eqb (state s) CHIEF)
     then map task_name (exclusiveTasks s)
     else match input with
          | CallRunExclusive task =>
              if TabState_eqb (state s) CHIEF then [task_name task] else []
          | _ => []
          end)
  /\ cleanups_run (emitted s s') =
    (if TabState_eqb (state s) CHIEF && negb (TabState_eqb (state s') CHIEF)
     then map cleanup_name (activeCleanups s)
     else match input with
          | BeforeUnload => map cleanup_name (activeCleanups s)
          | _ => []
          end)
  /\ (state s' <> CHIEF -> activeCleanups s' = [])
  /\ exclusiveTasks s' =
     exclusiveTasks s ++ match input with
                         | CallRunExclusive task => [task]
                         | _ => []
                         end
  /\ cleanups_returned (trace s') =
     cleanups_run (trace s') ++ map cleanup_name (activeCleanups s')
  /\ (state s' <> CHIEF -> cleanups_returned (trace s') = cleanups_run (trace s'))
  /\ (state s <> CHIEF -> state s' = CHIEF ->
      (world s', activeCleanups s') =
        set_up (exclusiveTasks s) (told CHIEF (state s) s (world s)) [])
  /\ (forall task : ExclusiveTask,
         input = CallRunExclusive task -> state s = CHIEF ->
         (world s', activeCleanups s') =
           set_up [task] (world s) (activeCleanups s))
  /\ (state s = CHIEF -> state s' = FOLLOWER ->
      world s' = called_in_order cleanup_call (activeCleanups s)
                   (told FOLLOWER CHIEF s (world s)))
  /\ (state s = CHIEF -> state s' = STOPPED ->
      world s' = told STOPPED CHIEF s
                   (called_in_order cleanup_call (activeCleanups s) (world s)))
  /\ (input = BeforeUnload -> state s = CHIEF ->
      state s' = CHIEF /\ activeCleanups s' = []
      /\ world s' = called_in_order cleanup_call (activeCleanups s) (world s))
  /\ (state s = CHIEF -> state s' = CHIEF -> input <> BeforeUnload ->
      (forall task : ExclusiveTask, input <> CallRunExclusive task) ->
      activeCleanups s' = activeCleanups s).
Proof.
  intros Hreach s'.
  assert (wellformed s') as (_ & _ & _ & _ & Hnochief' & Htrace')
      by (apply reachable_wellformed; now constructor).
  apply reachable_wellformed in Hreach.
  pose proof (step_page now input s Hreach) as Hpage. fold s' in Hpage.
  destruct Hreach as (Hch & Hbound & Hidle & Hchief & Hnochief & Htrace).
  cut (tasks_run (emitted s s') =
         (if TabState_eqb (state s') CHIEF && negb (TabState_eqb (state s) CHIEF)
          then map task_name (exclusiveTasks s)
          else match input with
               | CallRunExclusive task =>
                   if TabState_eqb (state s) CHIEF then [task_name task] else []
               | _ => []
               end)
       /\ cleanups_run (emitted s s') =
         (if TabState_eqb (state s) CHIEF && negb (TabState_eqb (state s') CHIEF)
          then map cleanup_name (activeCleanups s)
          else match input with
               | BeforeUnload => map cleanup_name (activeCleanups s)
               | _ => []
               end)
       /\ exclusiveTasks s' =
          exclusiveTasks s ++ match input with
                              | CallRunExclusive task => [task]
                              | _ => []
                              end);
    [intros (H1 & H2 & H4);
     split; [exact H1|]; split; [exact H2|]; split; [exact Hnochief'|];
     split; [exact H4|]; split; [exact Htrace'|]; split; [|exact Hpage];
     intros Hne; rewrite Htrace', (Hnochief' Hne); apply app_nil_r|].
  clear Hnochief' Htrace' Hpage. subst s'.
  remember (step now input s) as s' eqn:E.
  destruct input; cases E; subst s'; simpl; rewrite ?app_nil_r; read_trace.
  all: destruct (state s) eqn:Hst; simpl in *; try discriminate;
    try (repeat split; reflexivity).
  all: repeat match goal with
         | H : ?a = ?a -> _ |- _ => specialize (H eq_refl)
         | H : ?a <> ?b -> _ |- _ =>
             let N := fresh in
             assert (a <> b) as N by discriminate; specialize (H N); clear N
         | H : _ /\ _ |- _ => destruct H
         end.
  all: try congruence.
  all: try (rewrite Hnochief; repeat split; reflexivity).
Qed.

(** ** Two chiefs at once *)

(** The tie-break against the clock: once the clock has passed the creation
    time of the instance, [shouldYieldTo] with the clock reading as the other
    timestamp is false, whoever the other peer is. *)
Lemma no_yield_to_the_clock (s : TabChief) (other : string) (now : Z) :
  creationTimestamp s < now -> shouldYieldTo s other now = false.
Proof.
  intros H. unfold shouldYieldTo.
  destruct (Z.eqb_spec now (creationTimestamp s)); [lia|]. simpl.
  apply Z.ltb_ge. lia.
Qed.

(** Nothing but [stop()] takes leadership from such a chief: no message, no
    timer, no other call. *)
Lemma entrenched_step (since now : Z) (input : Input) (s : TabChief) :
  entrenched since s -> since <= now -> not_stop input = true ->
  entrenched since (step now input s).
Proof.
  intros (Hst & Hchief & Htimer & Hts) Hnow Hstop.
  assert (forall other, shouldYieldTo s other now = false) as Hyield
      by (intros; apply no_yield_to_the_clock; lia).
  remember (step now input s) as s' eqn:E.
  unfold entrenched.
  destruct input; try discriminate; unfold step, handleMessage in E;
    rewrite ?Hst, ?Htimer in E; simpl in E; cases E;
    rewrite ?Hst, ?Hyield in *; try discriminate; subst s'; simpl;
    rewrite ?Hst; auto; repeat split; congruence.
Qed.

Lemma replace_nth_length {A : Type} (n : nat) (x : A) (l : list A) :
  List.length (replace_nth n x l) = List.length l.
Proof.
  revert n. induction l as [|y l IH]; intros [|n]; simpl; auto.
Qed.

Lemma replace_nth_Forall {A : Type} (P : A -> Prop) (n : nat) (x : A)
    (l : list A) :
  Forall P l -> P x -> Forall P (replace_nth n x l).
Proof.
  intros Hl Hx. revert n. induction Hl as [|y l Hy Hl IH]; intros [|n]; simpl;
    constructor; auto.
Qed.

Lemma nth_error_Forall {A : Type} (P : A -> Prop) (n : nat) (x : A)
    (l : list A) :
  Forall P l -> nth_error l n = Some x -> P x.
Proof.
  intros Hl. revert n. induction Hl as [|y l Hy Hl IH]; intros [|n]; simpl;
    intros H; try discriminate.
  - now injection H as <-.
  - eauto.
Qed.

Lemma peer_step_entrenched (since now : Z) (i : nat) (input : Input)
    (msgs : list (nat * ChannelMessage)) (net : Network) :
  Forall (entrenched since) (peers net) -> since <= now ->
  not_stop input = true ->
  Forall (entrenched since) (peers (peer_step now i input msgs net))
  /\ List.length (peers (peer_step now i input msgs net)) =
     List.length (peers net).
Proof.
  intros Hall Hnow Hstop. unfold peer_step.
  destruct (nth_error (peers net) i) as [p|] eqn:Hp; simpl; [|auto].
  split; [|apply replace_nth_length].
  apply replace_nth_Forall; [exact Hall|].
  apply entrenched_step; auto.
  eapply nth_error_Forall; eauto.
Qed.

Lemma net_step_entrenched (since now : Z) (ev : NetEvent) (net : Network) :
  Forall (entrenched since) (peers net) -> since <= now ->
  no_stop ev = true ->
  Forall (entrenched since) (peers (net_step now ev net))
  /\ List.length (peers (net_step now ev net)) = List.length (peers net).
Proof.
  intros Hall Hnow Hstop. destruct ev as [i input|k]; simpl.
  - now apply peer_step_entrenched.
  - destruct (nth_error (inflight net) k) as [[receiver m]|]; [|auto].
    now apply peer_step_entrenched.
Qed.

(** Once every peer is such a chief, every later schedule of arrivals, timers
    and calls other than [stop()] leaves every peer a chief. *)
Lemma net_run_entrenched (since : Z) (events : list (Z * NetEvent)) :
  Forall (fun ne => since <= fst ne /\ no_stop (snd ne) = true) events ->
  forall net : Network,
    Forall (entrenched since) (peers net) ->
    Forall (entrenched since) (peers (net_run events net))
    /\ List.length (peers (net_run events net)) = List.length (peers net).
Proof.
  induction 1 as [|[now ev] events [Hnow Hstop] _ IH]; intros net Hall;
    simpl; [auto|].
  destruct (net_step_entrenched since now ev net Hall Hnow Hstop) as [H1 H2].
  destruct (IH _ H1) as [H3 H4]. split; [exact H3 | congruence].
Qed.

Lemma entrenched_isChief (since : Z) (l : list TabChief) :
  Forall (entrenched since) l -> map isChief l = repeat true (List.length l).
Proof.
  induction 1 as [|s l (Hst & _) _ IH]; simpl; [reflexivity|].
  unfold isChief at 1. now rewrite Hst, IH.
Qed.

Lemma reachable_run (inputs : list (Z * Input)) (s : TabChief) :
  reachable s -> reachable (run inputs s).
Proof.
  revert s. induction inputs as [|[now input] inputs IH]; intros s Hs; simpl.
  - exact Hs.
  - apply IH. now constructor.
Qed.

Lemma candidate_a_reachable (w : W) (open close : W -> W) :
  reachable (candidate_a w open close).
Proof. apply reachable_run, reachable_new. Qed.

Lemma chief_a_reachable (w : W) (open close : W -> W) :
  reachable (chief_a w open close).
Proof. apply reachable_step, candidate_a_reachable. Qed.

(** C1 fails on the code.  In [two_chiefs] both tabs are CHIEF: b was elected
    first; a, the older tab, started later; b had to yield to the ELECTION of
    a and so answered nothing, and a heard nothing within its election
    timeout.  In [two_chiefs_late] both are CHIEF with the default timing,
    the one ELECTION message having been in flight for three seconds.  From
    then on no schedule of arrivals, timers and calls other than [stop()]
    makes either tab step down: each compares the id of the other with its
    own clock reading, which has passed its creation time. *)
Theorem split_brain_is_permanent (w : W) (events : list (Z * NetEvent)) :
  Forall (fun ne => 4001 <= fst ne /\ no_stop (snd ne) = true) events ->
  (map isChief (peers (two_chiefs w)) = [true; true]
   /\ map isChief (peers (net_run events (two_chiefs w))) = [true; true])
  /\
  (map isChief (peers (two_chiefs_late w)) = [true; true]
   /\ map isChief (peers (net_run events (two_chiefs_late w))) = [true; true]).
Proof.
  intros Hevents.
  assert (forall net : Network,
             Forall (entrenched 4001) (peers net) ->
             List.length (peers net) = 2%nat ->
             map isChief (peers (net_run events net)) = [true; true]) as Hkeep.
  { intros net Hall Hlen.
    destruct (net_run_entrenched 4001 events Hevents net Hall) as [H1 H2].
    rewrite (entrenched_isChief 4001 _ H1), H2, Hlen. reflexivity. }
  split; (split; [vm_compute; reflexivity|]); apply Hkeep;
    try reflexivity; unfold entrenched; vm_compute; repeat constructor.
Qed.

(** * More of the state machine *)

(** ** Identity and messages *)

Lemma step_identity_and_stamps (now : Z) (input : Input) (s : TabChief) :
  identity (step now input s) = identity s
  /\ Forall (stamped_by s now) (posted (emitted s (step now input s))).
Proof.
  remember (step now input s) as s' eqn:E.
  destruct input; cases E; subst s'; (split; [reflexivity|]);
    read_trace; unfold stamped_by; repeat constructor; simpl; congruence.
Qed.

(** ** Timers and the tracked chief *)

Lemma step_timers_follow_state (now : Z) (input : Input) (s : TabChief) :
  wellformed s -> timers_follow_state s ->
  timers_follow_state (step now input s)
  /\ Forall (fun m =>
               (type m = HEARTBEAT \/ type m = VICTORY ->
                state (step now input s) = CHIEF)
               /\ (type m = SHUTDOWN -> state s = CHIEF))
       (posted (emitted s (step now input s))).
Proof.
  intros (Hch & Hbound & Hidle & Hchief & _ & _)
         (Hbeat & Hself & Hnone & Helecting & Hfollower).
  remember (step now input s) as s' eqn:E.
  destruct input; cases E; subst s'; unfold timers_follow_state; simpl;
    read_trace.
  all: destruct (state s) eqn:Hst; simpl in *; try discriminate.
  all: repeat match goal with
         | H : ?a = ?a -> _ |- _ => specialize (H eq_refl)
         | H : ?a <> ?b -> _ |- _ =>
             let N := fresh in
             assert (a <> b) as N by discriminate; specialize (H N); clear N
         | H : _ /\ _ |- _ => destruct H
         | H : exists _, _ |- _ => destruct H
         | H : Some ?t = Some (mkTimeout _ _ _) |- _ =>
             is_var t; injection H as H; subst t; simpl in *
         end.
  all: repeat match goal with
         | H : String.eqb _ _ = false |- _ => apply String.eqb_neq in H
         | H : String.eqb _ _ = true |- _ => apply String.eqb_eq in H
         end.
  all: try congruence.
  all: try (repeat match goal with
                   | |- _ /\ _ => split
                   | |- Forall _ _ => constructor
                   | |- _ -> _ => intro
                   | |- exists p, Some (mkTimeout _ _ ?q) = Some (mkTimeout _ _ p) =>
                       exists q
                   | H : _ \/ _ |- _ => destruct H
                   | H : ?P -> _ |- _ =>
                       let N := fresh in
                       assert P as N by congruence; specialize (H N); clear N
                   end; simpl in *; try discriminate; try congruence;
            try reflexivity; eauto; fail).
Qed.

Lemma reachable_timers_follow_state (s : TabChief) :
  reachable s -> timers_follow_state s.
Proof.
  induction 1 as [tab now name heartbeat election w | s now input Hs IH].
  - unfold timers_follow_state, new_TabChief. simpl.
    repeat split; intros; try discriminate; reflexivity.
  - apply step_timers_follow_state; [now apply reachable_wellformed | exact IH].
Qed.

(** X1. Whatever happens to an instance, in any number of steps, its id, its
    channel name, its two intervals and its creation timestamp stay what the
    constructor made them. *)
Theorem identity_is_immutable (inputs : list (Z * Input)) (s : TabChief) :
  identity (run inputs s) = identity s.
Proof.
  revert s. induction inputs as [|[now input] inputs IH]; intros s; simpl.
  - reflexivity.
  - rewrite IH. apply step_identity_and_stamps.
Qed.

(** X2. Every message an instance hands to the channel, in any step from any
    state, carries its own id; ELECTION and ALIVE carry its creation
    timestamp, HEARTBEAT, VICTORY, SHUTDOWN and DATA the clock reading of the
    step; DATA alone carries a payload. *)
Theorem messages_carry_identity (now : Z) (input : Input) (s : TabChief) :
  Forall (stamped_by s now) (posted (emitted s (step now input s))).
Proof. apply step_identity_and_stamps. Qed.

(** X3. On an instance that can be reached, a step that posts HEARTBEAT or
    VICTORY ends in CHIEF, and a step that posts SHUTDOWN began in CHIEF:
    an instance that is not chief never announces leadership. *)
Theorem only_a_chief_announces (now : Z) (input : Input) (s : TabChief) :
  reachable s ->
  Forall (fun m =>
            (type m = HEARTBEAT \/ type m = VICTORY ->
             state (step now input s) = CHIEF)
            /\ (type m = SHUTDOWN -> state s = CHIEF))
    (posted (emitted s (step now input s))).
Proof.
  intros Hs. apply step_timers_follow_state.
  - now apply reachable_wellformed.
  - now apply reachable_timers_follow_state.
Qed.

(** X4. On an instance that can be reached the heartbeat interval timer is
    set exactly while the instance is CHIEF, with the configured period; a
    tick of it posts one HEARTBEAT with the id of the instance and the clock,
    and changes nothing of the protocol state. *)
Theorem heartbeat_exactly_while_chief (now : Z) (s : TabChief) :
  reachable s ->
  heartbeatTimer s =
    (if isChief s then Some (heartbeatInterval s) else None)
  /\ posted (emitted s (step now HeartbeatTimerFires s)) =
       (if isChief s then [mkMessage HEARTBEAT (tabId s) now None] else [])
  /\ machine (step now HeartbeatTimerFires s) = machine s.
Proof.
  intros Hs.
  destruct (reachable_wellformed s Hs) as (Hch & _).
  destruct (reachable_timers_follow_state s Hs) as (Hbeat & _).
  unfold isChief. split; [exact Hbeat|].
  remember (step now HeartbeatTimerFires s) as s' eqn:E.
  unfold step in E. rewrite Hbeat in E.
  destruct (state s) eqn:Hst; simpl in *; cases E; subst s'; simpl;
    try discriminate; split; try reflexivity; read_trace; reflexivity.
Qed.

(** X5. On an instance that can be reached, the tracked chief is the instance
    itself exactly when it is CHIEF, and an instance that is not started
    tracks nobody. *)
Theorem tracks_itself_iff_chief (s : TabChief) :
  reachable s ->
  (currentChiefId s = Some (tabId s) <-> state s = CHIEF)
  /\ (started (state s) = false -> currentChiefId s = None).
Proof.
  intros Hs.
  destruct (reachable_wellformed s Hs) as (_ & _ & _ & Hchief & _).
  destruct (reachable_timers_follow_state s Hs) as (_ & Hself & Hnone & _).
  repeat split; auto. intros H. now apply Hchief.
Qed.

(** X6. On an instance that can be reached the election timer handle follows
    the state: ELECTING has its election timeout pending, with the
    configured delay; FOLLOWER holds a liveness timeout with that delay
    (pending, or spent); CHIEF, IDLE and STOPPED hold none. *)
Theorem election_timer_follows_state (s : TabChief) :
  reachable s ->
  match state s with
  | ELECTING =>
      electionTimer s = Some (mkTimeout DeclareVictory (electionTimeout s) true)
  | FOLLOWER =>
      exists p, electionTimer s =
                Some (mkTimeout SuspectChief (electionTimeout s) p)
  | CHIEF | IDLE | STOPPED => electionTimer s = None
  end.
Proof.
  intros Hs.
  destruct (reachable_wellformed s Hs) as (_ & _ & Hidle & Hchief & _).
  destruct (reachable_timers_follow_state s Hs)
    as (_ & _ & _ & Helecting & Hfollower).
  destruct (state s); simpl in *; auto.
  - now apply Hidle.
  - now apply Hchief.
  - now apply Hidle.
Qed.


(** ** Elections *)

(** X7. On an instance that can be reached and is ELECTING, the election
    timeout elects it: it becomes CHIEF, tracks itself, posts VICTORY and then
    HEARTBEAT with its id and the clock, sets the heartbeat interval timer
    with the configured period and holds no election timer any more. *)
Theorem election_timeout_elects (now : Z) (s : TabChief) :
  reachable s -> state s = ELECTING ->
  let s' := step now ElectionTimerFires s in
  state s' = CHIEF
  /\ isChief s' = true
  /\ currentChiefId s' = Some (tabId s)
  /\ posted (emitted s s') =
       [mkMessage VICTORY (tabId s) now None;
        mkMessage HEARTBEAT (tabId s) now None]
  /\ heartbeatTimer s' = Some (heartbeatInterval s)
  /\ electionTimer s' = None
  /\ electionDebounceTimer s' = electionDebounceTimer s.
Proof.
  intros Hs Hst s'. subst s'.
  destruct (reachable_wellformed s Hs) as (Hch & _).
  destruct (reachable_timers_follow_state s Hs) as (_ & _ & _ & Helecting & _).
  specialize (Helecting Hst). rewrite Hst in Hch. simpl in Hch.
  remember (step now ElectionTimerFires s) as s' eqn:E.
  unfold step, fireElectionTimer in E. rewrite Helecting in E. simpl in E.
  normalize E. rewrite ?Hch, ?Hst in E. simpl in E.
  subst s'. simpl. repeat split; try reflexivity. read_trace. reflexivity.
Qed.

(** [start()] where it does something. *)
Lemma start_eq (s : TabChief) :
  started (state s) = false -> electionDebounceTimer s = None ->
  machine (start s) =
    (ELECTING, currentChiefId s, true, heartbeatTimer s,
     Some (mkTimeout DeclareVictory (electionTimeout s) true),
     Some ELECTION_DEBOUNCE_TIME, true)
  /\ posted (emitted s (start s)) =
       [mkMessage ELECTION (tabId s) (creationTimestamp s) None]
  /\ registries (start s) = registries s
  /\ identity (start s) = identity s
  /\ activeCleanups (start s) = activeCleanups s.
Proof.
  intros Hst Hdebounce.
  remember (start s) as s' eqn:E. unfold start in E.
  destruct (state s) eqn:Hstate; try discriminate; simpl in E;
    normalize E; rewrite Hdebounce in E; simpl in E; subst s';
    unfold machine, registries, identity; simpl;
    repeat split; read_trace; reflexivity.
Qed.

Lemma remove_listener_eq (s : TabChief) :
  (if boundBeforeUnload s then set_boundBeforeUnload false s else s) =
  set_boundBeforeUnload false s.
Proof. destruct s as [? ? ? ? ? ? ? ? ? ? ? ? ? ? ? ? ? []]; reflexivity. Qed.

Lemma close_channel_eq (s : TabChief) :
  (if channel s then set_channel false s else s) = set_channel false s.
Proof. destruct s as [? ? ? ? ? []]; reflexivity. Qed.

(** [stop()] on a started instance, as a straight line. *)
Lemma stop_eq (now : Z) (s : TabChief) :
  started (state s) = true ->
  stop now s =
  set_currentChiefId None
    (setState STOPPED
       (set_channel false
          (set_boundBeforeUnload false
             (clearTimers
                (runCleanups
                   (if TabState_eqb (state s) CHIEF
                    then broadcast (mkMessage SHUTDOWN (tabId s) now None) s
                    else s)))))).
Proof.
  intros Hst. unfold stop.
  destruct (state s); try discriminate; simpl;
    now rewrite remove_listener_eq, close_channel_eq.
Qed.

Lemma stop_started_eq (now : Z) (s : TabChief) :
  started (state s) = true ->
  machine (stop now s) = (STOPPED, None, false, None, None, None, false)
  /\ posted (emitted s (stop now s)) =
       (if isChief s && channel s
        then [mkMessage SHUTDOWN (tabId s) now None]
        else [])
  /\ activeCleanups (stop now s) = []
  /\ registries (stop now s) = registries s
  /\ identity (stop now s) = identity s.
Proof.
  intros Hst.
  remember (stop now s) as s' eqn:E.
  rewrite stop_eq in E by exact Hst. unfold isChief.
  destruct (state s) eqn:Hstate; try discriminate; simpl in E; normalize E;
    subst s'; unfold machine, registries, identity; simpl;
    repeat split; read_trace; try reflexivity;
    destruct (channel s); reflexivity.
Qed.

(** X8. [start()] on an instance that can be reached and is IDLE or STOPPED
    opens the channel, registers the unload listener and opens an election:
    the instance is ELECTING, has posted one ELECTION with its creation
    timestamp, has armed the election timeout and the debounce window, holds
    no heartbeat timer and tracks nobody; what was registered stays
    registered. *)
Theorem start_opens_an_election (s : TabChief) :
  reachable s -> started (state s) = false ->
  machine (start s) =
    (ELECTING, None, true, None,
     Some (mkTimeout DeclareVictory (electionTimeout s) true),
     Some ELECTION_DEBOUNCE_TIME, true)
  /\ posted (emitted s (start s)) =
       [mkMessage ELECTION (tabId s) (creationTimestamp s) None]
  /\ registries (start s) = registries s
  /\ identity (start s) = identity s
  /\ activeCleanups (start s) = [].
Proof.
  intros Hs Hst.
  destruct (reachable_wellformed s Hs) as (_ & _ & Hidle & _ & Hnochief & _).
  destruct (reachable_timers_follow_state s Hs) as (_ & _ & Hnone & _).
  destruct (Hidle Hst) as (Hbeat & Htimer & Hdebounce).
  specialize (Hnone Hst).
  assert (activeCleanups s = []) as Hclean
      by (apply Hnochief; intros H; rewrite H in Hst; discriminate).
  destruct (start_eq s Hst Hdebounce) as (H1 & H2 & H3 & H4 & H5).
  rewrite H1, H5, Hnone, Hbeat, Hclean. auto.
Qed.

(** X9. [stop()] on an instance that can be reached and is started tears
    everything down: the instance is STOPPED, tracks nobody, its channel is
    closed, its three timers and the unload listener are gone and no cleanup
    stays active; it has posted SHUTDOWN first if it was CHIEF and nothing
    otherwise; identity and registrations are kept. *)
Theorem stop_tears_everything_down (now : Z) (s : TabChief) :
  reachable s -> started (state s) = true ->
  machine (stop now s) = (STOPPED, None, false, None, None, None, false)
  /\ posted (emitted s (stop now s)) =
       (if isChief s then [mkMessage SHUTDOWN (tabId s) now None] else [])
  /\ activeCleanups (stop now s) = []
  /\ registries (stop now s) = registries s
  /\ identity (stop now s) = identity s.
Proof.
  intros Hs Hst.
  destruct (reachable_wellformed s Hs) as (Hch & _).
  rewrite Hst in Hch.
  destruct (stop_started_eq now s Hst) as (H1 & H2 & H3 & H4 & H5).
  rewrite H2, Hch, andb_true_r. auto.
Qed.

(** X10. [start()] after [stop()] on a started instance gives the protocol
    state of a fresh instance of the same identity that has just been
    started, and keeps every registration. *)
Theorem restart_is_a_fresh_start (now : Z) (s : TabChief) :
  started (state s) = true ->
  machine (start (stop now s)) =
    machine (start (new_TabChief (tabId s) (creationTimestamp s)
                      (channelName s) (heartbeatInterval s)
                      (electionTimeout s) (world s)))
  /\ registries (start (stop now s)) = registries s
  /\ identity (start (stop now s)) = identity s.
Proof.
  intros Hst.
  destruct (stop_started_eq now s Hst) as (Hm & _ & _ & Hr & Hi).
  unfold machine in Hm. injection Hm as Hstate Hchief _ Hbeat _ Hdebounce _.
  assert (started (state (stop now s)) = false) as Hstopped
      by (rewrite Hstate; reflexivity).
  destruct (start_eq (stop now s) Hstopped Hdebounce) as (H1 & _ & H3 & H4 & _).
  destruct (start_eq (new_TabChief (tabId s) (creationTimestamp s)
                        (channelName s) (heartbeatInterval s)
                        (electionTimeout s) (world s)) eq_refl eq_refl)
    as (F1 & _).
  rewrite H1, F1, H3, H4, Hr, Hi, Hchief, Hbeat.
  unfold identity in Hi. injection Hi as _ _ _ Htimeout _.
  rewrite Htimeout. auto.
Qed.

(** X11. An instance that can be reached and is not started is inert: no
    delivery, timer or unload event changes it, posts anything or calls
    anything. *)
Theorem unstarted_instance_is_inert (now : Z) (input : Input) (s : TabChief) :
  reachable s -> started (state s) = false -> from_environment input = true ->
  step now input s = s.
Proof.
  intros Hs Hst Henv.
  destruct (reachable_wellformed s Hs) as (Hch & Hbound & Hidle & _).
  destruct (Hidle Hst) as (Hbeat & Htimer & Hdebounce).
  rewrite Hst in Hch, Hbound.
  destruct input; try discriminate; unfold step, fireElectionTimer;
    rewrite ?Hch, ?Hbound, ?Hbeat, ?Htimer, ?Hdebounce; reflexivity.
Qed.

(** X12. A DATA message delivered on an open channel: when it carries the id
    of the receiver it is ignored; otherwise every subscribed message
    callback is called once with [message.payload] (with [undefined] when the
    message carries none), in subscription order, and the page is left as
    those calls leave it; nothing is posted, and protocol state,
    registrations and active cleanups are as they were. *)
Theorem data_reaches_every_subscriber (now : Z) (m : ChannelMessage)
    (s : TabChief) :
  channel s = true -> type m = DATA ->
  let s' := step now (Deliver m) s in
  let data := match payload m with Some data => data | None => undefined end in
  (senderId m = tabId s -> s' = s)
  /\ (senderId m <> tabId s ->
      message_calls (emitted s s') =
        map (fun c => (message_callback_name c, data)) (messageCallbacks s)
      /\ world s' = called_in_order (fun c => message_callback_call c data)
                      (messageCallbacks s) (world s)
      /\ posted (emitted s s') = []
      /\ machine s' = machine s
      /\ registries s' = registries s
      /\ activeCleanups s' = activeCleanups s).
Proof.
  intros Hch Ht s' data. subst s' data.
  unfold step, handleMessage. rewrite Hch, Ht. split.
  - intros ->. now rewrite String.eqb_refl.
  - intros Hne. apply eqb_sender in Hne. rewrite Hne.
    rewrite notifyMessageCallbacks_eq. unfold read_payload. simpl.
    rewrite <- called_in_order_messages.
    repeat split; read_trace; reflexivity.
Qed.

(** X13. A SHUTDOWN notice from another peer, on an open channel: from a peer
    that is not the tracked chief it is ignored.  From the tracked chief, the
    instance forgets its chief and, if its debounce window is not armed,
    starts an election (ELECTING, one ELECTION posted with the creation
    timestamp, election timeout and debounce window armed); inside the
    debounce window it only forgets its chief. *)
Theorem shutdown_notice (now : Z) (m : ChannelMessage) (s : TabChief) :
  channel s = true -> senderId m <> tabId s -> type m = SHUTDOWN ->
  let s' := step now (Deliver m) s in
  (currentChiefId s <> Some (senderId m) -> s' = s)
  /\ (currentChiefId s = Some (senderId m) ->
      currentChiefId s' = None
      /\ (electionDebounceTimer s = None ->
          state s' = ELECTING
          /\ posted (emitted s s') =
               [mkMessage ELECTION (tabId s) (creationTimestamp s) None]
          /\ electionTimer s' =
               Some (mkTimeout DeclareVictory (electionTimeout s) true)
          /\ electionDebounceTimer s' = Some ELECTION_DEBOUNCE_TIME)
      /\ (electionDebounceTimer s <> None ->
          state s' = state s
          /\ posted (emitted s s') = []
          /\ electionTimer s' = electionTimer s)).
Proof.
  intros Hch Hsender Ht s'. subst s'.
  apply eqb_sender in Hsender.
  remember (step now (Deliver m) s) as s' eqn:E.
  unfold step, handleMessage, handleShutdown in E.
  rewrite Hch, Hsender, Ht in E. split.
  - intros Hother. destruct (currentChiefId s) as [chief|]; [|exact E].
    destruct (String.eqb (senderId m) chief) eqn:Heq; [|exact E].
    apply String.eqb_eq in Heq. subst chief. now elim Hother.
  - intros Hchief. rewrite Hchief, String.eqb_refl in E.
    cases E; subst s'; simpl; try congruence;
      (split; [reflexivity|]); split; intros Hd; try congruence;
      repeat split; try read_trace; reflexivity.
Qed.

(** X14. A pending liveness timeout that fires, on an open channel: the
    instance forgets its chief.  If its debounce window is not armed it
    starts an election (ELECTING, one ELECTION posted, election timeout
    armed).  Inside the debounce window it starts none: it keeps its state,
    posts nothing, and is left holding a spent handle, so that no election
    timer fires for it again until something else arms one. *)
Theorem liveness_timeout (now : Z) (d : Z) (s : TabChief) :
  channel s = true ->
  electionTimer s = Some (mkTimeout SuspectChief d true) ->
  let s' := step now ElectionTimerFires s in
  currentChiefId s' = None
  /\ (electionDebounceTimer s = None ->
      state s' = ELECTING
      /\ posted (emitted s s') =
           [mkMessage ELECTION (tabId s) (creationTimestamp s) None]
      /\ electionTimer s' =
           Some (mkTimeout DeclareVictory (electionTimeout s) true))
  /\ (electionDebounceTimer s <> None ->
      state s' = state s
      /\ posted (emitted s s') = []
      /\ electionTimer s' = Some (mkTimeout SuspectChief d false)
      /\ forall now', step now' ElectionTimerFires s' = s').
Proof.
  intros Hch Htimer s'. subst s'.
  remember (step now ElectionTimerFires s) as s' eqn:E.
  unfold step, fireElectionTimer in E. rewrite Htimer in E. simpl in E.
  cases E; subst s'; simpl; try congruence;
    (split; [reflexivity|]); split; intros Hd; try congruence;
    repeat split; try read_trace; reflexivity.
Qed.

(** X15. The election storm guard: while the debounce window is armed
    [startElection] changes nothing; [startElection] always leaves the window
    armed, so a second request right after a first adds nothing; and once
    armed the window stays armed through every step except its own timer,
    which disarms it, and [stop()]. *)
Theorem election_requests_are_debounced :
  (forall s : TabChief, electionDebounceTimer s <> None -> startElection s = s)
  /\ (forall s : TabChief, electionDebounceTimer (startElection s) <> None)
  /\ (forall s : TabChief, startElection (startElection s) = startElection s)
  /\ (forall (now : Z) (input : Input) (s : TabChief),
         electionDebounceTimer s <> None ->
         input <> DebounceTimerFires -> input <> CallStop ->
         electionDebounceTimer (step now input s) <> None)
  /\ (forall (now : Z) (s : TabChief),
         electionDebounceTimer (step now DebounceTimerFires s) = None).
Proof.
  assert (forall s : TabChief,
             electionDebounceTimer s <> None -> startElection s = s) as Hskip.
  { intros s H. unfold startElection.
    destruct (electionDebounceTimer s); [reflexivity | now elim H]. }
  assert (forall s : TabChief, electionDebounceTimer (startElection s) <> None)
    as Harmed.
  { intros s. remember (startElection s) as s' eqn:E.
    cases E; subst s'; simpl; congruence. }
  repeat split; auto.
  - intros now input s Harm Hinput Hstop.
    remember (step now input s) as s' eqn:E.
    destruct input; try congruence; cases E; subst s'; simpl; congruence.
  - intros now s. simpl.
    destruct (electionDebounceTimer s) eqn:Hd; simpl; auto.
Qed.

(** X16. The unload hook on an instance that can be reached and is started
    does not stop it: the protocol state and the registrations are as they
    were.  It posts SHUTDOWN if the instance is CHIEF and nothing otherwise,
    calls every active cleanup once, in order, and leaves none active. *)
Theorem unload_hook_leaves_the_instance_running (now : Z) (s : TabChief) :
  reachable s -> started (state s) = true ->
  machine (step now BeforeUnload s) = machine s
  /\ posted (emitted s (step now BeforeUnload s)) =
       (if isChief s then [mkMessage SHUTDOWN (tabId s) now None] else [])
  /\ cleanups_run (emitted s (step now BeforeUnload s)) =
       map cleanup_name (activeCleanups s)
  /\ activeCleanups (step now BeforeUnload s) = []
  /\ registries (step now BeforeUnload s) = registries s.
Proof.
  intros Hs Hst.
  destruct (reachable_wellformed s Hs) as (Hch & Hbound & _).
  rewrite Hst in Hch, Hbound.
  remember (step now BeforeUnload s) as s' eqn:E.
  unfold step, isChief in *. rewrite Hbound in E.
  destruct (state s) eqn:Hstate; try discriminate; normalize E;
    rewrite ?Hstate, ?Hch in E; simpl in E; subst s';
    unfold machine, registries; simpl; rewrite ?Hstate;
    repeat split; read_trace; reflexivity.
Qed.

(** ** Subscriptions *)

Lemma remove_first_spec {A : Type} (name : A -> nat) (n : nat) (l : list A) :
  removes_first name n l (remove_first (fun x => Nat.eqb (name x) n) l).
Proof.
  unfold removes_first. induction l as [|x l IH]; simpl.
  - left. auto.
  - destruct (Nat.eqb_spec (name x) n) as [Heq|Hne].
    + right. exists [], x, l. simpl. auto.
    + destruct IH as [[Hnot Hsame]|(l1 & y & l2 & Hl & Hy & Hnot & Hafter)].
      * left. rewrite Hsame. split; [|reflexivity]. intros [H|H]; auto.
      * right. exists (x :: l1), y, l2. simpl. rewrite Hafter.
        repeat split; auto; [now rewrite Hl | intros [H|H]; auto].
Qed.

Lemma remove_first_appended {A : Type} (name : A -> nat) (c : A) (l : list A) :
  ~ In (name c) (map name l) ->
  remove_first (fun x => Nat.eqb (name x) (name c)) (l ++ [c]) = l.
Proof.
  induction l as [|x l IH]; simpl; intros Hnot.
  - now rewrite Nat.eqb_refl.
  - destruct (Nat.eqb_spec (name x) (name c)) as [Heq|Hne].
    + elim Hnot. auto.
    + rewrite IH; auto.
Qed.

(** X17. Subscribing a callback that is not subscribed yet and unsubscribing
    it again gives back the instance as it was; so for each of the four
    observer registries. *)
Theorem subscribe_then_unsubscribe (s : TabChief) :
  (forall c : MessageCallback,
      ~ In (message_callback_name c)
          (map message_callback_name (messageCallbacks s)) ->
      offMessage c (onMessage c s) = s)
  /\ (forall c : StateChangeCallback,
         ~ In (state_callback_name c)
             (map state_callback_name (stateChangeCallbacks s)) ->
         offStateChange c (onStateChange c s) = s)
  /\ (forall c : LeadershipCallback,
         ~ In (leadership_callback_name c)
             (map leadership_callback_name (becomeChiefCallbacks s)) ->
         offBecomeChief c (onBecomeChief c s) = s)
  /\ (forall c : LeadershipCallback,
         ~ In (leadership_callback_name c)
             (map leadership_callback_name (becomeFollowerCallbacks s)) ->
         offBecomeFollower c (onBecomeFollower c s) = s).
Proof.
  repeat split; intros c Hnot;
    unfold offMessage, onMessage, offStateChange, onStateChange,
      offBecomeChief, onBecomeChief, offBecomeFollower, onBecomeFollower;
    simpl; rewrite remove_first_appended by exact Hnot; now destruct s.
Qed.

(** X18. Unsubscribing removes the first subscription of that callback and
    no other: a callback that is not subscribed leaves the registry as it
    is, one that is subscribed twice stays subscribed once, and the order of
    the others is kept.  Nothing else of the instance changes, and nothing is
    posted or called. *)
Theorem unsubscribe_removes_first_subscription (s : TabChief) :
  (forall c : MessageCallback,
      removes_first message_callback_name (message_callback_name c)
        (messageCallbacks s) (messageCallbacks (offMessage c s))
      /\ set_messageCallbacks (messageCallbacks s) (offMessage c s) = s)
  /\ (forall c : StateChangeCallback,
         removes_first state_callback_name (state_callback_name c)
           (stateChangeCallbacks s) (stateChangeCallbacks (offStateChange c s))
         /\ set_stateChangeCallbacks (stateChangeCallbacks s)
              (offStateChange c s) = s)
  /\ (forall c : LeadershipCallback,
         removes_first leadership_callback_name (leadership_callback_name c)
           (becomeChiefCallbacks s) (becomeChiefCallbacks (offBecomeChief c s))
         /\ set_becomeChiefCallbacks (becomeChiefCallbacks s)
              (offBecomeChief c s) = s)
  /\ (forall c : LeadershipCallback,
         removes_first leadership_callback_name (leadership_callback_name c)
           (becomeFollowerCallbacks s)
           (becomeFollowerCallbacks (offBecomeFollower c s))
         /\ set_becomeFollowerCallbacks (becomeFollowerCallbacks s)
              (offBecomeFollower c s) = s).
Proof.
  repeat split; try (now destruct s); apply remove_first_spec.
Qed.

(** ** Elections from start to finish *)

Lemma elected_eq (now d : Z) (s : TabChief) :
  channel s = true -> state s = ELECTING ->
  electionTimer s = Some (mkTimeout DeclareVictory d true) ->
  state (step now ElectionTimerFires s) = CHIEF
  /\ currentChiefId (step now ElectionTimerFires s) = Some (tabId s)
  /\ posted (emitted s (step now ElectionTimerFires s)) =
       [mkMessage VICTORY (tabId s) now None;
        mkMessage HEARTBEAT (tabId s) now None]
  /\ tasks_run (emitted s (step now ElectionTimerFires s)) =
       map task_name (exclusiveTasks s).
Proof.
  intros Hch Hst Htimer.
  remember (step now ElectionTimerFires s) as s' eqn:E.
  unfold step, fireElectionTimer in E. rewrite Htimer in E. simpl in E.
  normalize E. rewrite ?Hch, ?Hst in E. simpl in E.
  subst s'. simpl. repeat split; read_trace; reflexivity.
Qed.

(** X19. A tab on its own becomes chief: on an instance that can be reached
    and is not started, [start()] followed by the election timeout, with no
    message in between, ends in CHIEF; the two steps post ELECTION, then
    VICTORY and HEARTBEAT, and the second runs every registered task once, in
    registration order. *)
Theorem lone_tab_becomes_chief (t1 t2 : Z) (s : TabChief) :
  reachable s -> started (state s) = false ->
  let s1 := step t1 CallStart s in
  let s2 := step t2 ElectionTimerFires s1 in
  state s2 = CHIEF
  /\ currentChiefId s2 = Some (tabId s)
  /\ posted (emitted s s1) =
       [mkMessage ELECTION (tabId s) (creationTimestamp s) None]
  /\ posted (emitted s1 s2) =
       [mkMessage VICTORY (tabId s) t2 None;
        mkMessage HEARTBEAT (tabId s) t2 None]
  /\ tasks_run (emitted s s1) = []
  /\ tasks_run (emitted s1 s2) = map task_name (exclusiveTasks s).
Proof.
  intros Hs Hst s1 s2.
  destruct (reachable_wellformed s Hs) as (_ & _ & Hidle & _).
  destruct (Hidle Hst) as (_ & _ & Hdebounce).
  destruct (start_eq s Hst Hdebounce) as (Hm & Hposted & Hreg & Hid & _).
  unfold machine in Hm. injection Hm as Hstate _ Hch _ Htimer _ _.
  unfold registries in Hreg. injection Hreg as Htasks _ _ _ _.
  unfold identity in Hid. injection Hid as Htab _ _ _ _.
  destruct (elected_eq t2 _ (start s) Hch Hstate Htimer) as (E1 & E2 & E3 & E4).
  subst s1 s2. change (step t1 CallStart s) with (start s).
  rewrite Htab, Htasks in *.
  repeat split; auto.
  remember (start s) as s' eqn:E. clear - E Hst Hdebounce.
  unfold start in E.
  destruct (state s) eqn:Hstate; try discriminate; simpl in E;
    normalize E; rewrite Hdebounce in E; simpl in E; subst s';
    read_trace; reflexivity.
Qed.

(** X20. Leadership is handed over on shutdown: a started instance that can
    be reached, tracks another peer as chief and is outside its debounce
    window, on the SHUTDOWN notice of that peer followed by its own election
    timeout, ends in CHIEF, has posted ELECTION and then VICTORY and
    HEARTBEAT, and runs every registered task once. *)
Theorem leadership_transfers_on_shutdown (t1 t2 : Z) (m : ChannelMessage)
    (s : TabChief) :
  reachable s -> channel s = true ->
  type m = SHUTDOWN -> senderId m <> tabId s ->
  currentChiefId s = Some (senderId m) ->
  electionDebounceTimer s = None ->
  let s1 := step t1 (Deliver m) s in
  let s2 := step t2 ElectionTimerFires s1 in
  state s1 = ELECTING
  /\ state s2 = CHIEF
  /\ currentChiefId s2 = Some (tabId s)
  /\ posted (emitted s s1) =
       [mkMessage ELECTION (tabId s) (creationTimestamp s) None]
  /\ posted (emitted s1 s2) =
       [mkMessage VICTORY (tabId s) t2 None;
        mkMessage HEARTBEAT (tabId s) t2 None]
  /\ tasks_run (emitted s1 s2) = map task_name (exclusiveTasks s).
Proof.
  intros Hs Hch Ht Hsender Hchief Hdebounce s1 s2.
  apply eqb_sender in Hsender.
  assert (state s1 = ELECTING /\ channel s1 = true
          /\ electionTimer s1 =
               Some (mkTimeout DeclareVictory (electionTimeout s) true)
          /\ tabId s1 = tabId s /\ exclusiveTasks s1 = exclusiveTasks s
          /\ posted (emitted s s1) =
               [mkMessage ELECTION (tabId s) (creationTimestamp s) None])
    as (Hstate & Hch1 & Htimer & Htab & Htasks & Hposted).
  { subst s1 s2. remember (step t1 (Deliver m) s) as s' eqn:E.
    unfold step, handleMessage, handleShutdown in E.
    rewrite Hch, Hsender, Ht, Hchief, String.eqb_refl in E.
    normalize E. rewrite ?Hdebounce, ?Hch in E. simpl in E.
    subst s'. simpl. repeat split; try read_trace; rewrite ?Hch; reflexivity. }
  destruct (elected_eq t2 _ s1 Hch1 Hstate Htimer) as (E1 & E2 & E3 & E4).
  subst s2. rewrite Htab, Htasks in *. repeat split; auto.
Qed.

End Core.

(** * The scenarios, on a page that counts its open sockets *)

(** In the scenarios a payload is an integer: 0 stands for [undefined], a
    negative number for a value that cannot be cloned (a function, say). *)
#[export] Instance Z_JsValue : JsValue Z := mkJsValue Z 0 (fun z => 0 <=? z).

(** Closes a conjunction of facts that are at hand or hold by computation. *)
Ltac conclude :=
  repeat (split; [first [assumption | reflexivity]|]);
  first [assumption | reflexivity].

(** ** Instances of the theorems *)

Lemma split_brain_is_permanent_witness :
  let net := @two_chiefs Z Z Z_JsValue 0 in
  map isChief (peers (net_run victory_exchange net)) = [true; true]
  /\ map (fun dm => type (snd dm)) (inflight (net_run victory_exchange net))
     = [VICTORY].
Proof.
  split; [|vm_compute; reflexivity].
  apply (@split_brain_is_permanent Z Z Z_JsValue 0 victory_exchange).
  unfold victory_exchange. repeat constructor; simpl; lia.
Defined.

(** With the default timing the exchange goes the same way: after the four
    arrivals both tabs are CHIEF and the next VICTORY is in flight. *)
Lemma victory_exchange_late :
  let net := net_run victory_exchange (@two_chiefs_late Z Z Z_JsValue 0) in
  map state (peers net) = [CHIEF; CHIEF]
  /\ In VICTORY (map (fun dm => type (snd dm)) (inflight net)).
Proof. vm_compute. split; [reflexivity|]. auto 10. Qed.

Lemma shouldYieldTo_total_order_witness :
  let a := @tab_a Z Z 0 in
  let b := @tab_b Z Z 0 in
  tabId a <> tabId b
  /\ ((shouldYieldTo a (tabId b) (creationTimestamp b) = true
       /\ shouldYieldTo b (tabId a) (creationTimestamp a) = false)
      \/ (shouldYieldTo a (tabId b) (creationTimestamp b) = false
          /\ shouldYieldTo b (tabId a) (creationTimestamp a) = true)).
Proof.
  split; [discriminate|].
  apply (proj2 shouldYieldTo_total_order (@tab_a Z Z 0) (@tab_b Z Z 0)).
  discriminate.
Defined.


Lemma postMessage_only_when_started_witness :
  let s := @chief_a Z Z Z_JsValue 0 Z.succ Z.pred in
  let s' := postMessage 4000 7 s in
  cloneable 7 = true
  /\ posted (emitted s s') = [mkMessage DATA "a" 4000 (Some 7)]
  /\ message_calls (emitted s s') = [(1%nat, 7)]
  /\ raised (emitted s s') = [].
Proof.
  pose proof (proj1 (proj2 (postMessage_only_when_started 4000 7 _
                              (@chief_a_reachable Z Z Z_JsValue 0 Z.succ Z.pred))))
    as H.
  vm_compute in H. vm_compute.
  destruct H as (H1 & H2 & H3 & _); try discriminate; try reflexivity.
  conclude.
Defined.

Lemma effect_symmetry_witness :
  let candidate := @candidate_a Z Z Z_JsValue 0 Z.succ Z.pred in
  let chief := @chief_a Z Z Z_JsValue 0 Z.succ Z.pred in
  tasks_run (emitted candidate chief) = [1%nat]
  /\ cleanups_run (emitted chief (step 5000 CallStop chief)) = [1%nat]
  /\ world candidate = 0 /\ world chief = 1
  /\ world (step 5000 CallStop chief) = 0.
Proof.
  pose proof (proj1 (effect_symmetry 3800 ElectionTimerFires _
                       (@candidate_a_reachable Z Z Z_JsValue 0 Z.succ Z.pred))) as H1.
  pose proof (proj1 (proj2 (effect_symmetry 5000 CallStop _
                              (@chief_a_reachable Z Z Z_JsValue 0 Z.succ Z.pred)))) as H2.
  vm_compute in H1, H2. vm_compute.
  split; [exact H1|]. split; [exact H2|]. repeat split.
Defined.

Lemma chief_conflict_resolution_witness :
  let s := @chief_a Z Z Z_JsValue 0 Z.succ Z.pred in
  let s' := step 4000 (Deliver (mkMessage VICTORY "b" 4000 None)) s in
  shouldYieldTo s "b" 4000 = false
  /\ state s' = CHIEF
  /\ posted (emitted s s') = [mkMessage VICTORY "a" 4000 None].
Proof.
  pose proof (chief_conflict_resolution 4000 (mkMessage VICTORY "b" 4000 None)
                (@chief_a Z Z Z_JsValue 0 Z.succ Z.pred)) as H.
  vm_compute in H. vm_compute.
  destruct H as [_ H]; try reflexivity; try discriminate;
    [right; reflexivity|].
  destruct (H eq_refl) as (H1 & _ & H3 & _). repeat split; assumption.
Defined.

Lemma non_chief_acceptance_witness :
  let s := @electing_a Z Z Z_JsValue 0 in
  let s' := step 3350 (Deliver (mkMessage HEARTBEAT "b" 3350 None)) s in
  state s = ELECTING
  /\ state s' = FOLLOWER
  /\ currentChiefId s' = Some "b"%string
  /\ electionTimer s' = Some (mkTimeout SuspectChief 500 true).
Proof.
  pose proof (non_chief_acceptance 3350 (mkMessage HEARTBEAT "b" 3350 None)
                (@electing_a Z Z Z_JsValue 0)) as H.
  vm_compute in H. vm_compute.
  destruct H as [_ H]; try reflexivity; try discriminate.
  split; [reflexivity|]. apply H; left; reflexivity.
Defined.

Lemma election_request_response_witness :
  let s := @candidate_a Z Z Z_JsValue 0 Z.succ Z.pred in
  let s' := step 3500 (Deliver (mkMessage ELECTION "b" 200 None)) s in
  shouldYieldTo s "b" 200 = false
  /\ posted (emitted s s') =
     [mkMessage ALIVE "a" 100 None; mkMessage ELECTION "a" 100 None]
  /\ state s' = ELECTING.
Proof.
  pose proof (election_request_response 3500 (mkMessage ELECTION "b" 200 None)
                (@candidate_a Z Z Z_JsValue 0 Z.succ Z.pred)) as H.
  vm_compute in H. vm_compute.
  destruct H as [_ H]; try reflexivity; try discriminate.
  destruct (H eq_refl) as [_ H'].
  destruct H' as (H1 & H2 & _); try reflexivity; try discriminate.
  repeat split; assumption.
Defined.

(** ** Where the code departs from the claims *)

(** C2, as stated, fails: a CHIEF that does not yield to a HEARTBEAT posts
    nothing, so it does not rebroadcast VICTORY. *)
Lemma heartbeat_is_not_answered :
  let s := @chief_a Z Z Z_JsValue 0 Z.succ Z.pred in
  let s' := step 4200 (Deliver (mkMessage HEARTBEAT "b" 4200 None)) s in
  state s = CHIEF
  /\ channel s = true
  /\ shouldYieldTo s "b" 4200 = false
  /\ state s' = CHIEF
  /\ posted (emitted s s') = [].
Proof. vm_compute. repeat split. Qed.

(** C3, as stated, fails: an ELECTING instance accepts a VICTORY from a peer
    it out-ranks (by the creation time of the sender, 200, and by the
    timestamp the message carries alike): it becomes FOLLOWER and tracks the
    sender. *)
Lemma victory_from_outranked_peer_is_accepted :
  let s := @electing_a Z Z Z_JsValue 0 in
  let s' := step 3350 (Deliver (mkMessage VICTORY "b" 3350 None)) s in
  state s = ELECTING
  /\ currentChiefId s = None
  /\ shouldYieldTo s "b" 200 = false
  /\ shouldYieldTo s "b" 3350 = false
  /\ state s' = FOLLOWER
  /\ currentChiefId s' = Some "b"%string.
Proof. vm_compute. repeat split. Qed.

(** C5, as stated, fails: the unload hook runs the cleanup of a chief, which
    stays CHIEF when the unload does not happen; [stop()] afterwards, and the
    loss of CHIEF with it, runs no cleanup. *)
Lemma stop_after_unload_runs_no_cleanup :
  let s := @chief_a Z Z Z_JsValue 0 Z.succ Z.pred in
  let s1 := step 6000 BeforeUnload s in
  let s2 := step 7000 CallStop s1 in
  map cleanup_name (activeCleanups s) = [1%nat]
  /\ state s1 = CHIEF
  /\ cleanups_run (emitted s s1) = [1%nat]
  /\ state s2 = STOPPED
  /\ cleanups_run (emitted s1 s2) = [].
Proof. vm_compute. repeat split. Qed.

(** C6, as stated, fails: a FOLLOWER of higher priority than the sender,
    inside its debounce window, answers ALIVE and starts no election: it
    stays FOLLOWER, posts no ELECTION and keeps its liveness timer. *)
Lemma debounced_receiver_starts_no_election :
  let s := @follower_b Z Z Z_JsValue 0 in
  let s' := step 220 (Deliver (mkMessage ELECTION "c" 250 None)) s in
  state s = FOLLOWER
  /\ shouldYieldTo s "c" 250 = false
  /\ posted (emitted s s') = [mkMessage ALIVE "b" 200 None]
  /\ state s' = FOLLOWER
  /\ electionTimer s' = electionTimer s.
Proof. vm_compute. repeat split. Qed.

(** C10, as stated, fails: a started instance that is given a payload the
    channel cannot clone calls none of its subscribed callbacks and hands
    nothing to the channel; the exception of the channel leaves
    [postMessage]. *)
Lemma uncloneable_payload_reaches_no_callback :
  let s := @chief_a Z Z Z_JsValue 0 Z.succ Z.pred in
  let s' := postMessage 4000 (-1) s in
  state s = CHIEF
  /\ map message_callback_name (messageCallbacks s) = [1%nat]
  /\ cloneable (-1) = false
  /\ message_calls (emitted s s') = []
  /\ posted (emitted s s') = []
  /\ raised (emitted s s') = ["DataCloneError"%string].
Proof. vm_compute. repeat split. Qed.

(** ** Instances of the further theorems *)


Lemma only_a_chief_announces_witness :
  let s := @candidate_a Z Z Z_JsValue 0 Z.succ Z.pred in
  let s' := step 3800 ElectionTimerFires s in
  map type (posted (emitted s s')) = [VICTORY; HEARTBEAT]
  /\ Forall (fun m => type m = HEARTBEAT \/ type m = VICTORY -> state s' = CHIEF)
       (posted (emitted s s')).
Proof.
  pose proof (only_a_chief_announces 3800 ElectionTimerFires _
                (@candidate_a_reachable Z Z Z_JsValue 0 Z.succ Z.pred)) as H.
  vm_compute in H. vm_compute. split; [reflexivity|].
  eapply Forall_impl; [|exact H]. intros m [Hm _]. exact Hm.
Defined.

Lemma heartbeat_exactly_while_chief_witness :
  let s := @chief_a Z Z Z_JsValue 0 Z.succ Z.pred in
  heartbeatTimer s = Some 200
  /\ posted (emitted s (step 4000 HeartbeatTimerFires s)) =
       [mkMessage HEARTBEAT "a" 4000 None].
Proof.
  pose proof (heartbeat_exactly_while_chief 4000 _
                (@chief_a_reachable Z Z Z_JsValue 0 Z.succ Z.pred)) as H.
  vm_compute in H. vm_compute. destruct H as (H1 & H2 & _). conclude.
Defined.

Lemma tracks_itself_iff_chief_witness :
  let s := @chief_a Z Z Z_JsValue 0 Z.succ Z.pred in
  currentChiefId s = Some "a"%string /\ state s = CHIEF.
Proof.
  pose proof (proj1 (tracks_itself_iff_chief _
                       (@chief_a_reachable Z Z Z_JsValue 0 Z.succ Z.pred))) as H.
  vm_compute in H. vm_compute. split; [reflexivity|]. apply H. reflexivity.
Defined.

Lemma election_timer_follows_state_witness :
  let s := @follower_b Z Z Z_JsValue 0 in
  state s = FOLLOWER
  /\ exists p, electionTimer s = Some (mkTimeout SuspectChief 3000 p).
Proof.
  assert (reachable (@follower_b Z Z Z_JsValue 0)) as R
      by (unfold follower_b, tab_b; apply reachable_run, reachable_new).
  pose proof (election_timer_follows_state _ R) as H.
  vm_compute in H. vm_compute. split; [reflexivity | exact H].
Defined.

Lemma election_timeout_elects_witness :
  let s := @candidate_a Z Z Z_JsValue 0 Z.succ Z.pred in
  let s' := step 3800 ElectionTimerFires s in
  state s = ELECTING
  /\ state s' = CHIEF
  /\ posted (emitted s s') =
       [mkMessage VICTORY "a" 3800 None; mkMessage HEARTBEAT "a" 3800 None]
  /\ heartbeatTimer s' = Some 200.
Proof.
  pose proof (election_timeout_elects 3800 _
                (@candidate_a_reachable Z Z Z_JsValue 0 Z.succ Z.pred)) as H.
  vm_compute in H. vm_compute.
  destruct (H eq_refl) as (H1 & _ & _ & H4 & H5 & _).
  conclude.
Defined.

Lemma start_opens_an_election_witness :
  let s := @tab_a Z Z 0 in
  state s = IDLE
  /\ machine (start s) =
       (ELECTING, None, true, None,
        Some (mkTimeout DeclareVictory 500 true), Some 100, true)
  /\ posted (emitted s (start s)) = [mkMessage ELECTION "a" 100 None].
Proof.
  assert (reachable (@tab_a Z Z 0)) as R by (unfold tab_a; apply reachable_new).
  pose proof (start_opens_an_election _ R) as H.
  vm_compute in H. vm_compute.
  destruct (H eq_refl) as (H1 & H2 & _). conclude.
Defined.

Lemma stop_tears_everything_down_witness :
  let s := @chief_a Z Z Z_JsValue 0 Z.succ Z.pred in
  state s = CHIEF
  /\ machine (stop 5000 s) = (STOPPED, None, false, None, None, None, false)
  /\ posted (emitted s (stop 5000 s)) = [mkMessage SHUTDOWN "a" 5000 None]
  /\ activeCleanups (stop 5000 s) = [].
Proof.
  pose proof (stop_tears_everything_down 5000 _
                (@chief_a_reachable Z Z Z_JsValue 0 Z.succ Z.pred)) as H.
  vm_compute in H. vm_compute.
  destruct (H eq_refl) as (H1 & H2 & H3 & _). conclude.
Defined.

Lemma restart_is_a_fresh_start_witness :
  let s := @chief_a Z Z Z_JsValue 0 Z.succ Z.pred in
  state s = CHIEF
  /\ machine (start (stop 5000 s)) = machine (start (@tab_a Z Z 0))
  /\ map task_name (exclusiveTasks (start (stop 5000 s))) = [1%nat].
Proof.
  pose proof (restart_is_a_fresh_start 5000 (@chief_a Z Z Z_JsValue 0 Z.succ Z.pred)) as H.
  vm_compute in H. vm_compute.
  destruct (H eq_refl) as (H1 & _). conclude.
Defined.

Lemma unstarted_instance_is_inert_witness :
  let s := @idle_a Z Z Z_JsValue 0 Z.succ Z.pred in
  let beat := mkMessage HEARTBEAT "b" 3295 None in
  state s = IDLE /\ step 3295 (Deliver beat) s = s.
Proof.
  assert (reachable (@idle_a Z Z Z_JsValue 0 Z.succ Z.pred)) as R
      by (unfold idle_a, tab_a; apply reachable_step, reachable_new).
  pose proof (unstarted_instance_is_inert 3295
                (Deliver (mkMessage HEARTBEAT "b" 3295 None)) _ R) as H.
  split; [vm_compute; reflexivity|].
  apply H; vm_compute; reflexivity.
Defined.

Lemma data_reaches_every_subscriber_witness :
  let s := @chief_a Z Z Z_JsValue 0 Z.succ Z.pred in
  let s' := step 4000 (Deliver (mkMessage DATA "b" 4000 None)) s in
  channel s = true
  /\ message_calls (emitted s s') = [(1%nat, undefined)]
  /\ posted (emitted s s') = [].
Proof.
  pose proof (data_reaches_every_subscriber 4000
                (mkMessage DATA "b" 4000 None)
                (@chief_a Z Z Z_JsValue 0 Z.succ Z.pred)) as H.
  vm_compute in H. vm_compute.
  destruct (H eq_refl eq_refl) as [_ H'].
  destruct H' as (H1 & _ & H3 & _); [discriminate|].
  conclude.
Defined.

Lemma shutdown_notice_witness :
  let s := @follower_a Z Z Z_JsValue 0 in
  let s' := step 3500 (Deliver (mkMessage SHUTDOWN "b" 3500 None)) s in
  currentChiefId s = Some "b"%string
  /\ currentChiefId s' = None
  /\ state s' = ELECTING
  /\ posted (emitted s s') = [mkMessage ELECTION "a" 100 None].
Proof.
  pose proof (shutdown_notice 3500 (mkMessage SHUTDOWN "b" 3500 None)
                (@follower_a Z Z Z_JsValue 0)) as H.
  vm_compute in H. vm_compute.
  destruct H as [_ H]; try reflexivity; try discriminate.
  destruct (H eq_refl) as (H1 & H2 & _).
  destruct (H2 eq_refl) as (H3 & H4 & _).
  conclude.
Defined.

Lemma liveness_timeout_witness :
  let s := @follower_b Z Z Z_JsValue 0 in
  let s' := step 3210 ElectionTimerFires s in
  electionTimer s = Some (mkTimeout SuspectChief 3000 true)
  /\ electionDebounceTimer s = Some 100
  /\ state s' = FOLLOWER
  /\ posted (emitted s s') = []
  /\ electionTimer s' = Some (mkTimeout SuspectChief 3000 false).
Proof.
  pose proof (liveness_timeout 3210 3000 (@follower_b Z Z Z_JsValue 0)) as H.
  vm_compute in H. vm_compute.
  destruct (H eq_refl eq_refl) as (_ & _ & H').
  destruct H' as (H1 & H2 & H3 & _); [discriminate|].
  conclude.
Defined.

Lemma unload_hook_leaves_the_instance_running_witness :
  let s := @chief_a Z Z Z_JsValue 0 Z.succ Z.pred in
  let s' := step 6000 BeforeUnload s in
  state s = CHIEF
  /\ machine s' = machine s
  /\ posted (emitted s s') = [mkMessage SHUTDOWN "a" 6000 None]
  /\ cleanups_run (emitted s s') = [1%nat]
  /\ activeCleanups s' = [].
Proof.
  pose proof (unload_hook_leaves_the_instance_running 6000 _
                (@chief_a_reachable Z Z Z_JsValue 0 Z.succ Z.pred)) as H.
  vm_compute in H. vm_compute.
  destruct (H eq_refl) as (H1 & H2 & H3 & H4 & _).
  conclude.
Defined.

Lemma lone_tab_becomes_chief_witness :
  let s := @idle_a Z Z Z_JsValue 0 Z.succ Z.pred in
  let s1 := step 3300 CallStart s in
  let s2 := step 3800 ElectionTimerFires s1 in
  state s = IDLE
  /\ state s2 = CHIEF
  /\ tasks_run (emitted s1 s2) = [1%nat].
Proof.
  assert (reachable (@idle_a Z Z Z_JsValue 0 Z.succ Z.pred)) as R
      by (unfold idle_a, tab_a; apply reachable_step, reachable_new).
  pose proof (lone_tab_becomes_chief 3300 3800 _ R) as H.
  vm_compute in H. vm_compute.
  destruct (H eq_refl) as (H1 & _ & _ & _ & _ & H6).
  conclude.
Defined.

Lemma leadership_transfers_on_shutdown_witness :
  let s := @follower_a Z Z Z_JsValue 0 in
  let s1 := step 3500 (Deliver (mkMessage SHUTDOWN "b" 3500 None)) s in
  let s2 := step 4000 ElectionTimerFires s1 in
  state s = FOLLOWER
  /\ state s1 = ELECTING
  /\ state s2 = CHIEF
  /\ posted (emitted s1 s2) =
       [mkMessage VICTORY "a" 4000 None; mkMessage HEARTBEAT "a" 4000 None].
Proof.
  assert (reachable (@follower_a Z Z Z_JsValue 0)) as R
      by (unfold follower_a, electing_a, tab_a;
          apply reachable_run, reachable_run, reachable_new).
  pose proof (leadership_transfers_on_shutdown 3500 4000
                (mkMessage SHUTDOWN "b" 3500 None) _ R) as H.
  vm_compute in H. vm_compute.
  destruct H as (H1 & H2 & _ & _ & H5 & _);
    try reflexivity; try discriminate.
  conclude.
Defined.
